(** * Marking_GUI: the lab 2 marker ([lab_marker/auto/lab2/marker.py])

    A shallow embedding of the submission locator ([find_file]), the
    execution classifier ([run_lab_2_code], [run_individual_submission]) and
    the batch drivers ([mark_submissions_auto], [mark_submissions_manually],
    [retry_marking]), followed by the properties established about them.

    Conventions of the embedding.
    - A directory tree is a [Node]; [os.listdir] returns the entries of a
      directory in the order the tree lists them and raises
      [NotADirectoryError] on a regular file.
    - Wall-clock readings ([time.time()]) are rationals.
    - Effects (the clock, spawned children, the stream handlers) are threaded
      through a [World]; everything observable is appended to its [trace].
    - Python exceptions are the [Raised] results of the monad [M].
    - Colour codes, [print] and the [tqdm] progress bar only write to the
      terminal and are left out. *)

From Stdlib Require Import List String Ascii Bool Arith ZArith QArith Lia.
From Stdlib Require Import DecimalString.
From Equations Require Import Equations.
Import ListNotations.

Set Warnings "-register-all".
Local Open Scope nat_scope.
Local Open Scope string_scope.
Local Open Scope list_scope.

(** ** Python strings and [os.path] *)

Module Py.

(** [s[i:j]] for [0 <= i <= j]. *)
Definition slice (s : string) (i j : nat) : string := substring i (j - i) s.

(** [s.rfind(c)] for a one-character [c]: the last index of [c], [-1] when
    [c] does not occur. *)
Fixpoint rfind_from (c : ascii) (s : string) (i : Z) : Z :=
  match s with
  | EmptyString => (-1)%Z
  | String a rest =>
      let later := rfind_from c rest (i + 1)%Z in
      if (0 <=? later)%Z then later
      else if Ascii.eqb a c then i else (-1)%Z
  end.

Definition rfind (c : ascii) (s : string) : Z := rfind_from c s 0%Z.

Fixpoint all_dots (s : string) : bool :=
  match s with
  | EmptyString => true
  | String a rest => Ascii.eqb a "." && all_dots rest
  end.

(** [os.path.splitext] (posixpath, [genericpath._splitext]): the extension
    starts at the last dot that follows the last separator, unless only dots
    stand between the separator and that dot. *)
Definition splitext (p : string) : string * string :=
  let sepIndex := rfind "/" p in
  let dotIndex := rfind "." p in
  if (sepIndex <? dotIndex)%Z then
    let filenameIndex := (sepIndex + 1)%Z in
    if all_dots (slice p (Z.to_nat filenameIndex) (Z.to_nat dotIndex))
    then (p, "")
    else (slice p 0 (Z.to_nat dotIndex),
          slice p (Z.to_nat dotIndex) (String.length p))
  else (p, "").

Definition startswith (s pre : string) : bool := prefix pre s.

Fixpoint endswith_char (s : string) (c : ascii) : bool :=
  match s with
  | EmptyString => false
  | String a EmptyString => Ascii.eqb a c
  | String _ rest => endswith_char rest c
  end.

(** [os.path.join(a, b)] (posixpath). *)
Definition join (a b : string) : string :=
  if startswith b "/" then b
  else if (String.eqb a "" || endswith_char a "/")%bool then a ++ b
  else a ++ "/" ++ b.

Definition lower_char (c : ascii) : ascii :=
  let n := nat_of_ascii c in
  if ((65 <=? n) && (n <=? 90))%nat then ascii_of_nat (n + 32) else c.

(** [s.lower()] on ASCII text. *)
Fixpoint lower (s : string) : string :=
  match s with
  | EmptyString => EmptyString
  | String a rest => String (lower_char a) (lower rest)
  end.

(** [str(n)] for a non-negative integer. *)
Definition str_of_N (n : N) : string :=
  NilZero.string_of_uint (N.to_uint n).

(** [x in l] for a list of strings. *)
Definition contains (l : list string) (x : string) : bool :=
  existsb (String.eqb x) l.

(** [seq[i]]: negative indices count from the end, anything else out of
    range is an [IndexError] ([None]). *)
Definition getitem {A} (l : list A) (i : Z) : option A :=
  let n := Z.of_nat (List.length l) in
  if ((0 <=? i) && (i <? n))%Z then nth_error l (Z.to_nat i)
  else if ((- n <=? i) && (i <? 0))%Z then nth_error l (Z.to_nat (n + i))
  else None.

(** [l.remove(x)]: drops the first occurrence of [x]; [None] is the
    [ValueError] raised when [x] does not occur. *)
Fixpoint remove (x : string) (l : list string) : option (list string) :=
  match l with
  | [] => None
  | y :: rest =>
      if String.eqb y x then Some rest
      else option_map (cons y) (remove x rest)
  end.

(** [d[k] = v] on an insertion-ordered dict. *)
Fixpoint setitem (k v : string) (d : list (string * string))
  : list (string * string) :=
  match d with
  | [] => [(k, v)]
  | (k', v') :: rest =>
      if String.eqb k' k then (k, v) :: rest else (k', v') :: setitem k v rest
  end.

Definition keys (d : list (string * string)) : list string := map fst d.

End Py.

(** ** Exceptions and results *)

Inductive Exn : Type :=
| ChildProcessError
| NotADirectoryError
| KeyError
| IndexError
| ValueError
| FileNotFoundError
| EOFError.

Definition Exn_eqb (a b : Exn) : bool :=
  match a, b with
  | ChildProcessError, ChildProcessError
  | NotADirectoryError, NotADirectoryError
  | KeyError, KeyError
  | IndexError, IndexError
  | ValueError, ValueError
  | FileNotFoundError, FileNotFoundError
  | EOFError, EOFError => true
  | _, _ => false
  end.

Inductive Result (A : Type) : Type :=
| Returned (a : A)
| Raised (e : Exn).
Arguments Returned {A} a.
Arguments Raised {A} e.

(** ** The directory tree *)

Inductive Node : Type :=
| File
| Dir (entries : list (string * Node)).

(** [os.path.isdir]. *)
Definition isdir (n : Node) : bool :=
  match n with Dir _ => true | File => false end.

Fixpoint node_size (n : Node) : nat :=
  match n with
  | File => 1
  | Dir entries =>
      S ((fix sum (l : list (string * Node)) : nat :=
            match l with
            | [] => 0
            | (_, child) :: rest => node_size child + sum rest
            end) entries)
  end.

(** [os.listdir]. *)
Definition listdir (n : Node) : Result (list (string * Node)) :=
  match n with
  | Dir entries => Returned entries
  | File => Raised NotADirectoryError
  end.

(** ** [find_file] *)

(** The dict [find_file] returns. *)
Record CodeFile : Type := mkCodeFile {
  folder_path : string;
  ext : string;
  language : string
}.

Definition lang_map : list (string * string) :=
  [(".py", "Python"); (".java", "Java"); (".c", "C")].

Fixpoint dict_get (d : list (string * string)) (k : string) : Result string :=
  match d with
  | [] => Raised KeyError
  | (k', v) :: rest => if String.eqb k' k then Returned v else dict_get rest k
  end.

(** How the first [for] loop of [find_file] (lines 30-38) is left: by the
    [return] inside it, or at its end with the list [directories]. *)
Inductive FirstLoop : Type :=
| Return_ (r : Result CodeFile)
| Fallthrough (directories : list (string * Node)).

(** The first loop.  [directories] holds each collected [temp_path] together
    with the tree found at that path. *)
Fixpoint first_loop (search_folder file_name : string)
    (current_files : list (string * Node))
    (directories : list (string * Node)) : FirstLoop :=
  match current_files with
  | [] => Fallthrough directories
  | (directory, child) :: rest =>
      let '(current_file_name, current_file_ext) := Py.splitext directory in
      if String.eqb current_file_name file_name then
        if Py.contains [".py"; ".c"; ".java"] current_file_ext then
          Return_ (match dict_get lang_map current_file_ext with
                   | Returned lang =>
                       Returned (mkCodeFile search_folder current_file_ext lang)
                   | Raised e => Raised e
                   end)
        else first_loop search_folder file_name rest directories
      else
        let temp_path := Py.join search_folder directory in
        if isdir child
        then first_loop search_folder file_name rest
               (directories ++ [(temp_path, child)])
        else first_loop search_folder file_name rest directories
  end.

Definition inspect {A} (a : A) : {b : A | a = b} := exist _ a eq_refl.

Lemma first_loop_collects search_folder file_name :
  forall current_files directories ds p n,
    first_loop search_folder file_name current_files directories
      = Fallthrough ds ->
    In (p, n) ds ->
    In (p, n) directories \/ exists d, In (d, n) current_files.
Proof.
  induction current_files as [|[d c] rest IH]; intros dirs ds p n H Hin;
    cbn [first_loop] in H.
  - injection H as <-. now left.
  - destruct (Py.splitext d) as [nm ex].
    destruct (String.eqb nm file_name).
    + destruct (Py.contains _ ex); [discriminate|].
      destruct (IH _ _ _ _ H Hin) as [?|[d' ?]]; [now left|].
      right. exists d'. now right.
    + destruct (isdir c).
      * destruct (IH _ _ _ _ H Hin) as [Hd|[d' ?]].
        -- apply in_app_or in Hd as [?|[Heq|[]]]; [now left|].
           injection Heq as <- <-. right. exists d. now left.
        -- right. exists d'. now right.
      * destruct (IH _ _ _ _ H Hin) as [?|[d' ?]]; [now left|].
        right. exists d'. now right.
Qed.

Lemma node_size_child d n entries :
  In (d, n) entries -> (node_size n < node_size (Dir entries))%nat.
Proof.
  simpl. induction entries as [|[d' c] rest IH]; intros Hin; [easy|].
  destruct Hin as [Heq|Hin].
  - injection Heq as <- <-. lia.
  - specialize (IH Hin). lia.
Qed.

(** [find_file(search_folder, file_name)], with the tree at [search_folder].
    The second loop returns in its first iteration. *)
Equations? find_file (search_folder : string) (node : Node)
    (file_name : string) : Result (option CodeFile)
    by wf (node_size node) lt :=
find_file search_folder File file_name := Raised NotADirectoryError;
find_file search_folder (Dir current_files) file_name
    with inspect (first_loop search_folder file_name current_files []) := {
  | exist _ (Return_ (Returned found)) _ => Returned (Some found)
  | exist _ (Return_ (Raised e)) _ => Raised e
  | exist _ (Fallthrough []) _ => Returned None
  | exist _ (Fallthrough ((directory, sub) :: _)) H =>
      find_file directory sub file_name }.
Proof.
  destruct (first_loop_collects _ _ _ _ _ directory sub H) as [[]|[d Hd]];
    [now left|].
  exact (node_size_child _ _ _ Hd).
Qed.

(** ** Outcome codes *)

Inductive ExecStatus : Type :=
| OK
| FILE_NOT_FOUND
| EXECUTION_FAILED
| UNEXPECTED_TERMINATION
| TIMEOUT.

(** Modelled from the spec: [config.ExecStatus] is not part of the sources at
    hand.  Its codes are integers, [0] means success and only [OK] carries
    it; every code has a description string.  The remaining codes and the
    texts are left open. *)
Class ExecStatusTable : Type := {
  value : ExecStatus -> Z;
  get_description : Z -> string;
  value_OK : value OK = 0%Z;
  value_zero : forall s, value s = 0%Z -> s = OK
}.

(** ** The world *)

(** What one call of [get_output] does, as the classifier can observe it:
    it returns with the child still alive, it returns having found the child
    dead ([is_alive] is [False] afterwards), or it raises
    [ChildProcessError]. *)
Inductive PollOutcome : Type :=
| StillRunning
| FoundDead
| ChildEnded.

Record Poll : Type := mkPoll {
  secs : Q;                 (* wall-clock time the call takes *)
  lines : list string;      (* captured output forwarded to the sink *)
  outcome : PollOutcome
}.

Inductive Event : Type :=
| EvSystem (command : string)
| EvSpawn (pid : nat) (at_time : Q) (command cwd : string)
| EvPoll (pid : nat) (timeout : Q)
| EvKill (pid : nat)
| EvOpen (file_name : string) (terminal_out : option bool)
| EvWriteLine (file_name line : string)
| EvWriteMessage (file_name message : string) (no_print : bool)
| EvClose (file_name : string).

Record World : Type := mkWorld {
  clock : Q;                       (* what [time.time()] returns now *)
  spawned : nat;                   (* children spawned so far *)
  compiled : nat;                  (* [os.system] calls so far *)
  trace : list Event;              (* everything observed, oldest first *)
  child : nat -> nat -> Poll;      (* k-th child, n-th [get_output] *)
  system_secs : nat -> Q           (* how long the k-th [os.system] blocks *)
}.

Definition emit (e : Event) (w : World) : World :=
  mkWorld (clock w) (spawned w) (compiled w) (trace w ++ [e])
          (child w) (system_secs w).

Definition emit_all (es : list Event) (w : World) : World :=
  mkWorld (clock w) (spawned w) (compiled w) (trace w ++ es)
          (child w) (system_secs w).

Definition advance (d : Q) (w : World) : World :=
  mkWorld (clock w + d)%Q (spawned w) (compiled w) (trace w)
          (child w) (system_secs w).

(** ** The monad of effects and exceptions *)

Definition M (A : Type) : Type := World -> Result A * World.

Definition ret {A} (a : A) : M A := fun w => (Returned a, w).

Definition raise {A} (e : Exn) : M A := fun w => (Raised e, w).

Definition bind {A B} (m : M A) (k : A -> M B) : M B :=
  fun w =>
    match m w with
    | (Returned a, w') => k a w'
    | (Raised e, w') => (Raised e, w')
    end.

(** [try: m  except e: handler]. *)
Definition try_except {A} (m : M A) (e : Exn) (handler : M A) : M A :=
  fun w =>
    match m w with
    | (Raised e', w') =>
        if Exn_eqb e' e then handler w' else (Raised e', w')
    | r => r
    end.

Definition lift {A} (r : Result A) : M A := fun w => (r, w).

Definition or_raise {A} (o : option A) (e : Exn) : M A :=
  match o with Some a => ret a | None => raise e end.

Declare Scope py_scope.
Delimit Scope py_scope with py.
Notation "x <- m ;; k" := (bind m (fun x => k))
  (at level 61, m at next level, right associativity) : py_scope.
Notation "m ;;; k" := (bind m (fun _ => k))
  (at level 61, right associativity) : py_scope.
Local Open Scope py_scope.

(** [time.time()]. *)
Definition time_time : M Q := fun w => (Returned (clock w), w).

(** [os.system(command)]: blocks until the command is done; its exit status
    is not looked at. *)
Definition os_system (command : string) : M unit :=
  fun w =>
    let d := system_secs w (compiled w) in
    (Returned tt,
     mkWorld (clock w + d)%Q (spawned w) (S (compiled w))
             (trace w ++ [EvSystem command]) (child w) (system_secs w)).

(** [x < y] on clock readings. *)
Definition Qltb (x y : Q) : bool := negb (Qle_bool y x).

(** ** Stream handlers *)

Record StreamHandler : Type := mkStream {
  file_name : string;
  terminal_out : option bool      (* [None]: the constructor's default *)
}.

(** Modelled from the spec: [lab_marker.auto.StreamHandler] is not part of
    the sources at hand.  A stream is opened on a file name, takes captured
    lines and status messages, and is closed. *)
Definition StreamHandler_new (file_name : string) (terminal_out : option bool)
  : M StreamHandler :=
  fun w => (Returned (mkStream file_name terminal_out),
            emit (EvOpen file_name terminal_out) w).

Definition write_message (s : StreamHandler) (message : string)
    (no_print : bool) : M unit :=
  fun w => (Returned tt, emit (EvWriteMessage (file_name s) message no_print) w).

Definition close (s : StreamHandler) : M unit :=
  fun w => (Returned tt, emit (EvClose (file_name s)) w).

(** ** Process handlers *)

Record ProcessHandler : Type := mkProcess {
  pid : nat;                  (* which child of the world this is *)
  out_stream : StreamHandler;
  is_alive : bool;
  polled : nat                (* calls of [get_output] so far *)
}.

(** Modelled from the spec: [lab_marker.auto.ProcessHandler] is not part of
    the sources at hand.  Constructing it launches the command in [cwd];
    launching takes no time on the model clock. *)
Definition ProcessHandler_new (command : string) (out_stream : StreamHandler)
    (cwd : string) : M ProcessHandler :=
  fun w =>
    (Returned (mkProcess (spawned w) out_stream true 0),
     mkWorld (clock w) (S (spawned w)) (compiled w)
             (trace w ++ [EvSpawn (spawned w) (clock w) command cwd])
             (child w) (system_secs w)).

(** Modelled from the spec: [get_output(timeout)] waits for output, forwards
    the captured lines to the sink and then returns, or signals that the
    child ended with [ChildProcessError].  What happens at each call is the
    world's [child]. *)
Definition get_output (client : ProcessHandler) (timeout : Q)
  : M ProcessHandler :=
  fun w =>
    let p := child w (pid client) (polled client) in
    let w' :=
      advance (secs p)
        (emit_all (EvPoll (pid client) timeout
                   :: map (EvWriteLine (file_name (out_stream client))) (lines p))
                  w) in
    match outcome p with
    | StillRunning =>
        (Returned (mkProcess (pid client) (out_stream client) true
                             (S (polled client))), w')
    | FoundDead =>
        (Returned (mkProcess (pid client) (out_stream client) false
                             (S (polled client))), w')
    | ChildEnded => (Raised ChildProcessError, w')
    end.

(** Modelled from the spec: [kill_process()] always succeeds. *)
Definition kill_process (client : ProcessHandler) : M unit :=
  fun w => (Returned tt, emit (EvKill (pid client)) w).

(** ** [run_lab_2_code] *)

Definition process_commands (port_num : N) : list (string * string) :=
  [("Python", ("python PingClient.py localhost " ++ Py.str_of_N port_num)%string);
   ("C", ("./PingClient localhost " ++ Py.str_of_N port_num)%string);
   ("Java", ("java PingClient localhost " ++ Py.str_of_N port_num)%string)].

(** Iterations the polling loop can still make when entered with [count]. *)
Definition remaining (count : nat) : nat := 151 - count.
Arguments remaining : simpl never.

(** The [while True] loop of lines 83-92, entered with [count].  It is left
    by [return] once [count] exceeds 150, or by the exception of
    [get_output]. *)
Equations? poll_loop (client : ProcessHandler) (count : nat) (w : World)
    : Result ExecStatus * World by wf (remaining count) lt :=
poll_loop client count w with get_output client (1 # 10) w := {
  | (Raised e, w1) => (Raised e, w1)
  | (Returned client1, w1) with inspect ((150 <? count + 1)%nat) := {
      | exist _ true _ => (kill_process client1 ;;; ret TIMEOUT) w1
      | exist _ false H => poll_loop client1 (count + 1) w1 } }.
Proof. unfold remaining. apply Nat.ltb_ge in H. lia. Qed.

(** Lines 77-99: the first check and the polling loop. *)
Definition watch_client (exec_start_time : Q) (client : ProcessHandler)
  : M ExecStatus :=
  client <- get_output client (1 # 10) ;;
  if negb (is_alive client) then ret EXECUTION_FAILED
  else
    try_except (poll_loop client 0) ChildProcessError
      (now <- time_time ;;
       if Qltb (now - exec_start_time) 2 then ret UNEXPECTED_TERMINATION
       else ret OK).

Definition run_lab_2_code (code_file_dir code_lang : string)
    (out_stream : StreamHandler) (port_num : N) : M ExecStatus :=
  exec_start_time <- time_time ;;
  if String.eqb code_lang "Python" then
    command <- lift (dict_get (process_commands port_num) "Python") ;;
    client <- ProcessHandler_new command out_stream code_file_dir ;;
    watch_client exec_start_time client
  else if String.eqb code_lang "Java" then
    os_system ("javac " ++ Py.join code_file_dir "PingClient.java")%string ;;;
    command <- lift (dict_get (process_commands port_num) "Java") ;;
    client <- ProcessHandler_new command out_stream code_file_dir ;;
    watch_client exec_start_time client
  else
    write_message out_stream "Code implemented in C, Please check manually!"
                  false ;;;
    ret OK.

(** ** [run_individual_submission] *)

Definition run_individual_submission (submission_path : string) (node : Node)
    (out_stream : StreamHandler) : M ExecStatus :=
  code_file <- lift (find_file submission_path node "PingClient") ;;
  match code_file with
  | None =>
      write_message out_stream "File not found" true ;;;
      ret FILE_NOT_FOUND
  | Some code_file =>
      run_lab_2_code (folder_path code_file) (language code_file) out_stream
                     12000%N
  end.

(** ** The batch drivers *)

(** The file system as [os.listdir] finds it: the tree at a path, or the
    exception [os.listdir] raises there. *)
Definition FileSystem : Type := string -> Result Node.

(** The paths [os.path.join(folder, name)] of the entries [os.listdir(folder)]
    returns, each with the tree found there. *)
Fixpoint entry_at (folder : string) (entries : list (string * Node))
    (path : string) : Result Node :=
  match entries with
  | [] => Raised FileNotFoundError
  | (d, child) :: rest =>
      if String.eqb (Py.join folder d) path then Returned child
      else entry_at folder rest path
  end.

(** The file system below a folder, as far as its listing tells.  The
    automatic pass only ever asks for the entries of the listing. *)
Definition listed_below (folder : string) (folder_node : Node) : FileSystem :=
  fun path =>
    match folder_node with
    | File => Raised NotADirectoryError
    | Dir entries => entry_at folder entries path
    end.

(** [f'{output_destination}/{submission}_output.txt']. *)
Definition output_file (output_destination submission : string) : string :=
  (output_destination ++ "/" ++ submission ++ "_output.txt")%string.

(** What one pass of the retry loop saw: the submission selected, its new
    outcome and, when the operator was asked, the lower-cased answer. *)
Record Round : Type := mkRound {
  selected : string;
  outcome_seen : ExecStatus;
  answer : option string
}.

(** How the retry loop ended, with the list [retry_submissions] it ended on
    and the passes it made. *)
Record RetryRun : Type := mkRetryRun {
  ended : Result unit;
  ledger : list string;
  rounds : list Round
}.

Section Batch.

Context {table : ExecStatusTable}.

(** Lines 201-208: one submission of the automatic pass. *)
Definition auto_body (class_path output_destination submission : string)
    (node : Node) (failed_processes : list (string * string))
  : M (list (string * string)) :=
  let submission_path := Py.join class_path submission in
  code_output_stream <-
    StreamHandler_new (output_file output_destination submission) None ;;
  status <- run_individual_submission submission_path node code_output_stream ;;
  let failed_processes :=
    if negb (value status =? 0)%Z
    then Py.setitem submission (get_description (value status)) failed_processes
    else failed_processes in
  close code_output_stream ;;;
  ret failed_processes.

(** Lines 199-208: the [for] loop over the class directory. *)
Fixpoint auto_for (class_path output_destination : string)
    (class_submissions : list (string * Node))
    (failed_processes : list (string * string))
  : M (list (string * string)) :=
  match class_submissions with
  | [] => ret failed_processes
  | (submission, node) :: rest =>
      if negb (Py.startswith submission ".") then
        failed_processes <-
          auto_body class_path output_destination submission node
                    failed_processes ;;
        auto_for class_path output_destination rest failed_processes
      else auto_for class_path output_destination rest failed_processes
  end.

(** Lines 171-185: one pass of the retry loop.  [selected_submission] is what
    [print_and_get_selection] returned, [keyboard] the lines [input] has yet
    to read; the pass returns the new list, the lines left and what it
    saw.  The entries of [retry_submissions] are the keys of the caller's
    dictionary, any strings: [tree_at] tells what [os.listdir] finds at the
    path that [os.path.join] makes of each. *)
Definition retry_body (submission_path : string) (tree_at : FileSystem)
    (output_destination : string) (retry_submissions : list string)
    (selected_submission : Z) (keyboard : list string)
  : M (list string * list string * Round) :=
  submission <- or_raise (Py.getitem retry_submissions selected_submission)
                         IndexError ;;
  code_output_stream <-
    StreamHandler_new (output_file output_destination submission) (Some true) ;;
  node <- lift (tree_at (Py.join submission_path submission)) ;;
  status <- run_individual_submission (Py.join submission_path submission) node
                                      code_output_stream ;;
  close code_output_stream ;;;
  if (value status =? 0)%Z then
    remaining_list <- or_raise (Py.remove submission retry_submissions)
                               ValueError ;;
    ret (remaining_list, keyboard, mkRound submission status None)
  else
    match keyboard with
    | [] => raise EOFError
    | line :: keyboard' =>
        let decision := Py.lower line in
        if String.eqb decision "r" then
          remaining_list <- or_raise (Py.remove submission retry_submissions)
                                     ValueError ;;
          ret (remaining_list, keyboard',
               mkRound submission status (Some decision))
        else
          ret (retry_submissions, keyboard',
               mkRound submission status (Some decision))
    end.

(** Lines 162-185: the [while len(retry_submissions) > 0] loop.
    Modelled from the spec: [lab_marker.utils.print_and_get_selection] is not
    part of the sources at hand; it returns the operator's next selection,
    an index into the list shown.  [picks] are the selections still to come;
    when there are none the call ends like [input] at the end of its input,
    with [EOFError]. *)
Fixpoint retry_loop (submission_path : string) (tree_at : FileSystem)
    (output_destination : string) (picks : list Z) (keyboard : list string)
    (retry_submissions : list string) (w : World) {struct picks}
  : RetryRun * World :=
  match retry_submissions with
  | [] => (mkRetryRun (Returned tt) [] [], w)
  | _ :: _ =>
      match picks with
      | [] => (mkRetryRun (Raised EOFError) retry_submissions [], w)
      | selected_submission :: picks' =>
          match retry_body submission_path tree_at output_destination
                           retry_submissions selected_submission keyboard w with
          | (Raised e, w') => (mkRetryRun (Raised e) retry_submissions [], w')
          | (Returned (remaining_list, keyboard', round), w') =>
              let '(run, w'') :=
                retry_loop submission_path tree_at output_destination
                           picks' keyboard' remaining_list w' in
              (mkRetryRun (ended run) (ledger run) (round :: rounds run), w'')
          end
      end
  end.

Definition retry_marking (submission_path : string) (tree_at : FileSystem)
    (retry_dict : list (string * string)) (output_destination : string)
    (picks : list Z) (keyboard : list string) : M unit :=
  fun w =>
    let retry_submissions := Py.keys retry_dict in
    let '(run, w') :=
      retry_loop submission_path tree_at output_destination picks keyboard
                 retry_submissions w in
    (ended run, w').

(** Lines 135-148: one pass of the manual loop. *)
Definition manual_body (class_path output_destination : string)
    (class_submissions : list (string * Node)) (lab_num : Z) : M unit :=
  entry <- or_raise (Py.getitem class_submissions lab_num) IndexError ;;
  let submission_path := Py.join class_path (fst entry) in
  code_output_stream <-
    StreamHandler_new (output_file output_destination (fst entry))
                      (Some true) ;;
  status <- run_individual_submission submission_path (snd entry)
                                      code_output_stream ;;
  close code_output_stream.

(** Lines 134-148: the [while True] loop; only an exception leaves it. *)
Fixpoint manual_loop (class_path output_destination : string)
    (class_submissions : list (string * Node)) (picks : list Z) : M unit :=
  match picks with
  | [] => raise EOFError
  | lab_num :: picks' =>
      manual_body class_path output_destination class_submissions lab_num ;;;
      manual_loop class_path output_destination class_submissions picks'
  end.

Definition mark_submissions_manually (class_path : string) (class_node : Node)
    (output_destination : string) (picks : list Z) : M unit :=
  class_submissions <- lift (listdir class_node) ;;
  manual_loop class_path output_destination class_submissions picks.

(** Lines 218-224: ask until the operator answers [n] or [y]. *)
Fixpoint ask_retry (class_path : string) (class_node : Node)
    (output_destination : string) (failed_processes : list (string * string))
    (picks : list Z) (keyboard : list string) : M unit :=
  match keyboard with
  | [] => raise EOFError
  | decision :: keyboard' =>
      if String.eqb decision "n" then ret tt
      else if String.eqb decision "y" then
        retry_marking class_path (listed_below class_path class_node)
                      failed_processes output_destination picks keyboard'
      else ask_retry class_path class_node output_destination failed_processes
                     picks keyboard'
  end.

Definition mark_submissions_auto (class_path : string) (class_node : Node)
    (output_destination : string) (picks : list Z) (keyboard : list string)
  : M unit :=
  class_submissions <- lift (listdir class_node) ;;
  failed_processes <-
    auto_for class_path output_destination class_submissions [] ;;
  ask_retry class_path class_node output_destination failed_processes
            picks keyboard.

End Batch.

(** ** Vocabulary of the statements *)

Definition stem (name : string) : string := fst (Py.splitext name).

Definition extension (name : string) : string := snd (Py.splitext name).

(** A direct entry that [find_file] returns as the code file. *)
Definition is_candidate (file_name : string) (entry : string * Node) : bool :=
  String.eqb (stem (fst entry)) file_name
  && Py.contains [".py"; ".c"; ".java"] (extension (fst entry)).

(** A direct entry that the first loop appends to [directories]. *)
Definition is_collected (file_name : string) (entry : string * Node) : bool :=
  negb (String.eqb (stem (fst entry)) file_name) && isdir (snd entry).

(** The path and tree [directories] holds for a collected entry. *)
Definition collected_as (search_folder : string) (entry : string * Node)
  : string * Node :=
  (Py.join search_folder (fst entry), snd entry).

Definition is_poll (e : Event) : bool :=
  match e with EvPoll _ _ => true | _ => false end.

Definition is_kill (e : Event) : bool :=
  match e with EvKill _ => true | _ => false end.

Definition is_spawn (e : Event) : bool :=
  match e with EvSpawn _ _ _ _ => true | _ => false end.

Definition is_open (e : Event) : bool :=
  match e with EvOpen _ _ => true | _ => false end.

Definition is_close (e : Event) : bool :=
  match e with EvClose _ => true | _ => false end.

(** How many events of a trace satisfy [p]. *)
Definition occurrences (p : Event -> bool) (evs : list Event) : nat :=
  List.length (filter p evs).

(** Neither an [EvOpen] nor an [EvClose]. *)
Definition inside_stream (e : Event) : Prop :=
  is_open e = false /\ is_close e = false.

(** [w'] is [w] after the events [evs]; the behaviour of the children and of
    [os.system] is the same. *)
Definition grows (w w' : World) (evs : list Event) : Prop :=
  trace w' = trace w ++ evs
  /\ child w' = child w
  /\ system_secs w' = system_secs w.

(** The poll that the next [get_output] of [client] makes. *)
Definition next_poll (w : World) (client : ProcessHandler) : Poll :=
  child w (pid client) (polled client).

(** The world after that call. *)
Definition polled_world (client : ProcessHandler) (timeout : Q) (w : World)
  : World :=
  advance (secs (next_poll w client))
    (emit_all (EvPoll (pid client) timeout
               :: map (EvWriteLine (file_name (out_stream client)))
                      (lines (next_poll w client)))
              w).

(** The handle as the constructor returns it. *)
Definition fresh_client (w : World) (out_stream : StreamHandler)
  : ProcessHandler :=
  mkProcess (spawned w) out_stream true 0.

(** Events a polling client produces: polls with the 0.1 timeout and the
    captured lines. *)
Definition polling_event (pid : nat) (e : Event) : Prop :=
  e = EvPoll pid (1 # 10) \/ exists f l, e = EvWriteLine f l.

(** The stream on [file] is opened, written to and closed, in this order and
    once each, between [w] and [w']. *)
Definition opened_and_closed_once (file : string) (w w' : World) : Prop :=
  exists t evs,
    trace w' = trace w ++ EvOpen file t :: evs ++ [EvClose file]
    /\ Forall inside_stream evs.
(** An entry of the class folder that the automatic pass processes. *)
Definition visible (entry : string * Node) : bool :=
  negb (Py.startswith (fst entry) ".").

(** The pass took its submission off the list: the new outcome was [OK], or
    the operator answered [r]. *)
Definition removes (round : Round) : Prop :=
  outcome_seen round = OK \/ answer round = Some "r".

(** The pass left its submission on the list. *)
Definition keeps (round : Round) : Prop :=
  outcome_seen round <> OK /\ answer round <> Some "r".


(** ** Sample trees *)

(** A folder whose first subdirectory carries the target's own name. *)
Definition shadowed_entries : list (string * Node) :=
  [("PingClient", Dir [("notes.txt", File)]);
   ("sub", Dir [("PingClient.py", File)])].

(** A folder with a regular file, a directory named like the target, and two
    ordinary subdirectories. *)
Definition mixed_entries : list (string * Node) :=
  [("PingClient", Dir [("PingClient.py", File)]);
   ("a.txt", File);
   ("sub", Dir [("PingClient.java", File)]);
   ("later", Dir [("PingClient.py", File)])].

(** ** Sample worlds *)

(** A world at time 0 in which nothing has happened yet. *)
Definition start (child : nat -> nat -> Poll) (javac_secs : Q) : World :=
  mkWorld 0 0 0 [] child (fun _ => javac_secs).

(** Every poll takes 0.1 s and captures nothing. *)
Definition never_exits : nat -> nat -> Poll :=
  fun _ _ => mkPoll (1 # 10) [] StillRunning.

Definition dead_on_launch : nat -> nat -> Poll :=
  fun _ _ => mkPoll (1 # 10) [] FoundDead.

Definition ends_at_first_poll : nat -> nat -> Poll :=
  fun _ _ => mkPoll (1 # 10) [] ChildEnded.

(** Alive at every poll before the [n]-th, which signals the end. *)
Definition ends_at (n : nat) : nat -> nat -> Poll :=
  fun _ k =>
    mkPoll (1 # 10) [] (if Nat.eqb k n then ChildEnded else StillRunning).

Definition sink : StreamHandler := mkStream "out/z1_output.txt" None.

(** A table of codes as the spec describes it. *)
#[local] Instance sample_table : ExecStatusTable.
Proof.
  refine {| value := fun s =>
              match s with
              | OK => 0
              | FILE_NOT_FOUND => -2
              | EXECUTION_FAILED => -1
              | UNEXPECTED_TERMINATION => -3
              | TIMEOUT => -4
              end%Z;
            get_description := fun code =>
              if (code =? -2)%Z then "File not found" else "Execution failed" |}.
  - reflexivity.
  - intros []; cbn; congruence.
Defined.

(** A class folder: a hidden entry and three submissions. *)
Definition sample_class : Node :=
  Dir [(".git", Dir [("PingClient.py", File)]);
       ("z1", Dir [("PingClient.py", File)]);
       ("z2", Dir [("src", Dir [("PingClient.c", File)])]);
       ("z3", Dir [("readme.txt", File)])].


(** ** Further vocabulary *)

(** [reaches search_folder node path sub]: going down from the folder
    [search_folder], whose tree is [node], through directory entries leads to
    the path [path], whose tree is [sub]. *)
Inductive reaches : string -> Node -> string -> Node -> Prop :=
| reaches_here search_folder node :
    reaches search_folder node search_folder node
| reaches_down search_folder entries d child path sub :
    In (d, child) entries ->
    reaches (Py.join search_folder d) child path sub ->
    reaches search_folder (Dir entries) path sub.

(** Events of the client [pid] writing to [file]: its polls with the 0.1
    timeout and the captured lines. *)
Definition client_event (pid : nat) (file : string) (e : Event) : Prop :=
  e = EvPoll pid (1 # 10) \/ exists line, e = EvWriteLine file line.

Definition is_system (e : Event) : bool :=
  match e with EvSystem _ => true | _ => false end.

(** The file an event writes to, for the events that write. *)
Definition written_file (e : Event) : option string :=
  match e with
  | EvWriteLine f _ | EvWriteMessage f _ _ => Some f
  | _ => None
  end.

(** The poll outcome of the child that the next launch in [w] creates. *)
Definition poll_outcome (w : World) (n : nat) : PollOutcome :=
  outcome (child w (spawned w) n).

(** How a classification of a launched child can go, read off its polls. *)
Inductive Course (w : World) : Result ExecStatus -> list Event -> nat -> Prop :=
| FaultAtFirstPoll :
    poll_outcome w 0 = ChildEnded ->
    Course w (Raised ChildProcessError) [] 1
| DeadAtFirstCheck :
    poll_outcome w 0 = FoundDead ->
    Course w (Returned EXECUTION_FAILED) [] 1
| KilledAtCeiling :
    poll_outcome w 0 = StillRunning ->
    (forall i, 1 <= i <= 151 -> poll_outcome w i <> ChildEnded) ->
    Course w (Returned TIMEOUT) [EvKill (spawned w)] 152
| EndedInLoop k st :
    poll_outcome w 0 = StillRunning ->
    k <= 150 ->
    (forall i, 1 <= i <= k -> poll_outcome w i <> ChildEnded) ->
    poll_outcome w (S k) = ChildEnded ->
    st = UNEXPECTED_TERMINATION \/ st = OK ->
    Course w (Returned st) [] (k + 2).

(** The compile step of line 69, for the languages that have one. *)
Definition compile_events (code_file_dir code_lang : string) : list Event :=
  if String.eqb code_lang "Java"
  then [EvSystem ("javac " ++ Py.join code_file_dir "PingClient.java")]
  else [].

(** The command the classifier launches for Python and Java. *)
Definition launch_command (code_lang : string) (port_num : N) : string :=
  if String.eqb code_lang "Java"
  then "java PingClient localhost " ++ Py.str_of_N port_num
  else "python PingClient.py localhost " ++ Py.str_of_N port_num.

(** The languages for which a child is launched. *)
Definition launches (code_lang : string) : bool :=
  String.eqb code_lang "Python" || String.eqb code_lang "Java".

(** The files streams were opened on, and those that were closed, in the
    order of the trace. *)
Definition opened_files (evs : list Event) : list string :=
  flat_map (fun e => match e with EvOpen f _ => [f] | _ => [] end) evs.

Definition closed_files (evs : list Event) : list string :=
  flat_map (fun e => match e with EvClose f => [f] | _ => [] end) evs.

(** The names the automatic pass processes, in listing order. *)
Definition visible_names (class_submissions : list (string * Node))
  : list string :=
  map fst (filter visible class_submissions).

(** An answer to the question of lines 218-224 that is neither [n] nor [y]. *)
Definition undecided (line : string) : Prop := line <> "n" /\ line <> "y".

(** An index Python rejects for the list [l]. *)
Definition out_of_range {A} (l : list A) (i : Z) : Prop :=
  (i < - Z.of_nat (List.length l) \/ Z.of_nat (List.length l) <= i)%Z.

(** ** [lab_marker/remote.py] *)

Module Remote.

(** What the functions of [remote.py] do to the outside world, in order.
    [connection.ssh.Client] is not part of the sources at hand: its
    transfers are recorded, and what [execute] returns for a command, the
    lines of its output, is a parameter.  Faults of the connection and of
    the local file system are not modelled. *)
Inductive Action : Type :=
| Execute (command : string)
| Makedirs (path : string)                       (* [exist_ok=True] *)
| DownloadFolder (remote_dir local_dir : string)
| DownloadFile (remote_path local_path : string).

(** [f"/home/cs3331/{term}.work/{lab_name}/{class_name}/"]. *)
Definition ssh_lab_path (term lab_name class_name : string) : string :=
  ("/home/cs3331/" ++ term ++ ".work/" ++ lab_name ++ "/" ++ class_name
   ++ "/")%string.

(** The inner loop of [download_labs_all_classes] (lines 28-33). *)
Fixpoint download_submissions (ssh_lab_path save_path class_name : string)
    (avail_submissions : list string) : list Action :=
  match avail_submissions with
  | [] => []
  | submission :: rest =>
      Makedirs (Py.join (Py.join save_path class_name) submission)
      :: DownloadFolder (Py.join ssh_lab_path submission)
                        (Py.join (Py.join save_path class_name) submission)
      :: download_submissions ssh_lab_path save_path class_name rest
  end.

Fixpoint download_labs_all_classes (execute : string -> list string)
    (term lab_name : string) (class_names : list string) (save_path : string)
  : list Action :=
  match class_names with
  | [] => []
  | class_name :: rest =>
      let ssh_lab_path := ssh_lab_path term lab_name class_name in
      let avail_submissions := execute ("ls " ++ ssh_lab_path)%string in
      Execute ("ls " ++ ssh_lab_path)%string
      :: download_submissions ssh_lab_path save_path class_name
           avail_submissions
      ++ download_labs_all_classes execute term lab_name rest save_path
  end.

(** [download_selected]: the loop runs over [zip(remote_paths,
    local_paths)]. *)
Fixpoint download_selected (remote_paths local_paths : list string)
  : list Action :=
  match remote_paths, local_paths with
  | r_path :: remote_paths', l_path :: local_paths' =>
      Makedirs l_path :: DownloadFolder r_path l_path
      :: download_selected remote_paths' local_paths'
  | _, _ => []
  end.

(** *** [pathlib.PurePath] on POSIX *)

(** [s.split("/")]. *)
Fixpoint split_slash (s : string) : list string :=
  match s with
  | EmptyString => [EmptyString]
  | String c rest =>
      if Ascii.eqb c "/" then EmptyString :: split_slash rest
      else match split_slash rest with
           | [] => [String c EmptyString]
           | piece :: pieces => String c piece :: pieces
           end
  end.

(** The root of a path: ["/"], ["//"] for exactly two leading slashes, or
    none. *)
Definition root (p : string) : string :=
  if Py.startswith p "//" && negb (Py.startswith p "///") then "//"
  else if Py.startswith p "/" then "/"
  else "".

(** The components after the root: empty pieces and ["."] are dropped. *)
Definition components (p : string) : list string :=
  filter (fun c => negb (String.eqb c "") && negb (String.eqb c "."))
         (split_slash p).

(** [PurePath(p).parts]. *)
Definition parts (p : string) : list string :=
  (if String.eqb (root p) "" then [] else [root p]) ++ components p.

(** ["/".join(l)]. *)
Fixpoint join_slash (l : list string) : string :=
  match l with
  | [] => ""
  | [c] => c
  | c :: rest => (c ++ "/" ++ join_slash rest)%string
  end.

(** [str(PurePath(p).parent)]. *)
Definition parent_str (p : string) : string :=
  let comps := removelast (components p) in
  if String.eqb (root p) "" && match comps with [] => true | _ => false end
  then "."
  else (root p ++ join_slash comps)%string.

(** [t[-3:-1]]. *)
Definition slice_m3_m1 {A} (t : list A) : list A :=
  let n := List.length t in
  firstn ((n - 1) - (n - 3)) (skipn (n - 3) t).

(** *** [download_log_files] *)

(** The fields [download_log_files] passes to [config.RemoteSubmission]. *)
Record RemoteSubmission : Type := mkRemoteSubmission {
  zID : string;
  r_path : string;
  lab : string;
  lab_class : string
}.

(** [d[k] = v] on an insertion-ordered dict. *)
Fixpoint setitem {V} (k : string) (v : V) (d : list (string * V))
  : list (string * V) :=
  match d with
  | [] => [(k, v)]
  | (k', v') :: rest =>
      if String.eqb k' k then (k, v) :: rest else (k', v') :: setitem k v rest
  end.

(** [d.get(k)]. *)
Fixpoint lookup {V} (k : string) (d : list (string * V)) : option V :=
  match d with
  | [] => None
  | (k', v) :: rest => if String.eqb k' k then Some v else lookup k rest
  end.

(** Lines 81-87: the class and the student of a log path and the record
    made from them; [None] when the slice does not unpack into two names
    ([ValueError]). *)
Definition submission_of (r_log_path selected_lab : string)
  : option RemoteSubmission :=
  match slice_m3_m1 (parts r_log_path) with
  | [class_name; student_id] =>
      Some (mkRemoteSubmission student_id (parent_str r_log_path)
                               selected_lab class_name)
  | _ => None
  end.

(** The loop of [download_log_files], entered with the dict and the actions
    so far. *)
Fixpoint download_log_loop (r_log_paths : list string) (selected_lab : string)
    (r_submissions : list (string * RemoteSubmission)) (done : list Action)
  : Result (list (string * RemoteSubmission)) * list Action :=
  match r_log_paths with
  | [] => (Returned r_submissions, done)
  | r_log_path :: rest =>
      match submission_of r_log_path selected_lab with
      | None => (Raised ValueError, done)
      | Some r_submission =>
          let student_id := zID r_submission in
          download_log_loop rest selected_lab
            (setitem student_id r_submission r_submissions)
            (done ++ [DownloadFile r_log_path (".temp/" ++ student_id)%string])
      end
  end.

Definition download_log_files (r_log_paths : list string)
    (selected_lab : string)
  : Result (list (string * RemoteSubmission)) * list Action :=
  download_log_loop r_log_paths selected_lab [] [].

End Remote.

(** The folder transfers among some actions, as (remote, local) pairs. *)
Definition folder_downloads (acts : list Remote.Action)
  : list (string * string) :=
  flat_map (fun a => match a with
                     | Remote.DownloadFolder r l => [(r, l)]
                     | _ => []
                     end) acts.

(** The commands run among some actions. *)
Definition commands_run (acts : list Remote.Action) : list string :=
  flat_map (fun a => match a with Remote.Execute c => [c] | _ => [] end) acts.

(** Actions in which every folder transfer comes right after the creation
    of its local directory. *)
Inductive Prepared : list Remote.Action -> Prop :=
| Prepared_nil : Prepared []
| Prepared_execute command acts :
    Prepared acts -> Prepared (Remote.Execute command :: acts)
| Prepared_download remote_dir local_dir acts :
    Prepared acts ->
    Prepared (Remote.Makedirs local_dir
              :: Remote.DownloadFolder remote_dir local_dir :: acts).

(** The record of the last path of [r_log_paths] that belongs to
    [student_id]. *)
Fixpoint last_record (student_id selected_lab : string)
    (r_log_paths : list string) : option Remote.RemoteSubmission :=
  match r_log_paths with
  | [] => None
  | r_log_path :: rest =>
      match last_record student_id selected_lab rest with
      | Some r => Some r
      | None =>
          match Remote.submission_of r_log_path selected_lab with
          | Some r =>
              if String.eqb (Remote.zID r) student_id then Some r else None
          | None => None
          end
      end
  end.

(** The transfer [download_log_files] makes for a log path. *)
Definition log_download (selected_lab r_log_path : string)
  : list Remote.Action :=
  match Remote.submission_of r_log_path selected_lab with
  | Some r =>
      [Remote.DownloadFile r_log_path (".temp/" ++ Remote.zID r)%string]
  | None => []
  end.

(** * Properties *)

(** ** [find_file] *)

Lemma find_file_in_dir search_folder current_files file_name :
  find_file search_folder (Dir current_files) file_name =
  match first_loop search_folder file_name current_files [] with
  | Return_ (Returned found) => Returned (Some found)
  | Return_ (Raised e) => Raised e
  | Fallthrough [] => Returned None
  | Fallthrough ((directory, sub) :: _) => find_file directory sub file_name
  end.
Proof.
  simp find_file.
  destruct (inspect (first_loop search_folder file_name current_files []))
    as [[[found|e]|[|[directory sub] ds]] Hx];
    simp find_file; rewrite Hx; reflexivity.
Qed.

(** One step of the first loop, by the kind of the entry met. *)
Lemma first_loop_cons search_folder file_name d child rest directories :
  first_loop search_folder file_name ((d, child) :: rest) directories =
  if String.eqb (stem d) file_name then
    if Py.contains [".py"; ".c"; ".java"] (extension d) then
      Return_ (match dict_get lang_map (extension d) with
               | Returned lang =>
                   Returned (mkCodeFile search_folder (extension d) lang)
               | Raised e => Raised e
               end)
    else first_loop search_folder file_name rest directories
  else if isdir child
       then first_loop search_folder file_name rest
              (directories ++ [(Py.join search_folder d, child)])
       else first_loop search_folder file_name rest directories.
Proof.
  unfold stem, extension. cbn [first_loop].
  destruct (Py.splitext d) as [nm ex]. reflexivity.
Qed.

Lemma first_loop_no_candidate search_folder file_name :
  forall current_files directories,
    (forall e, In e current_files -> is_candidate file_name e = false) ->
    first_loop search_folder file_name current_files directories
    = Fallthrough (directories
                   ++ map (collected_as search_folder)
                          (filter (is_collected file_name) current_files)).
Proof.
  induction current_files as [|[d child] rest IH]; intros dirs Hno.
  - cbn. now rewrite app_nil_r.
  - rewrite first_loop_cons.
    assert (Hrest : forall e, In e rest -> is_candidate file_name e = false)
      by (intros e He; apply Hno; now right).
    specialize (Hno (d, child) (or_introl eq_refl)).
    unfold is_candidate in Hno. cbn [fst snd] in Hno.
    cbn [filter]. unfold is_collected at 1. cbn [fst snd].
    destruct (String.eqb (stem d) file_name); cbn [negb andb] in *.
    + rewrite Hno. apply IH, Hrest.
    + destruct (isdir child).
      * rewrite (IH _ Hrest). cbn [map]. now rewrite <- app_assoc.
      * apply IH, Hrest.
Qed.

Lemma head_of_collected {C} search_folder file_name (none : C)
    (some : string -> Node -> C) (l : list (string * Node)) :
  match map (collected_as search_folder) (filter (is_collected file_name) l)
  with
  | [] => none
  | (directory, sub) :: _ => some directory sub
  end
  = match find (is_collected file_name) l with
    | None => none
    | Some (d, sub) => some (Py.join search_folder d) sub
    end.
Proof.
  induction l as [|[d sub] l IH]; [reflexivity|].
  cbn [filter find]. destruct (is_collected file_name (d, sub));
    [reflexivity|exact IH].
Qed.

(** C6, as amended.  When no direct entry of the search folder is a
    candidate file, [find_file] recurses into at most one subdirectory: the
    first entry in listing order that is a directory and whose name without
    extension differs from the target base name.  It returns that search's
    result, or [None] when there is no such entry; no other subdirectory is
    looked into. *)
Theorem find_file_first_collected_only search_folder current_files file_name :
  (forall e, In e current_files -> is_candidate file_name e = false) ->
  find_file search_folder (Dir current_files) file_name
  = match find (is_collected file_name) current_files with
    | None => Returned None
    | Some (directory, sub) =>
        find_file (Py.join search_folder directory) sub file_name
    end.
Proof.
  intros Hno. rewrite find_file_in_dir.
  rewrite (first_loop_no_candidate _ _ _ [] Hno). cbn [app].
  apply (head_of_collected search_folder file_name (Returned None)
           (fun directory sub => find_file directory sub file_name)).
Qed.

Example find_file_mixed :
  find_file "root" (Dir mixed_entries) "PingClient"
  = Returned (Some (mkCodeFile "root/sub" ".java" "Java")).
Proof. reflexivity. Qed.

Lemma find_file_first_collected_only_witness :
  (forall e, In e mixed_entries -> is_candidate "PingClient" e = false)
  /\ find_file "root" (Dir mixed_entries) "PingClient"
     = find_file "root/sub" (Dir [("PingClient.java", File)]) "PingClient".
Proof.
  assert (H : forall e, In e mixed_entries -> is_candidate "PingClient" e = false)
    by (intros e [<-|[<-|[<-|[<-|[]]]]]; reflexivity).
  split; [exact H|].
  exact (find_file_first_collected_only "root" mixed_entries "PingClient" H).
Defined.

(** C6 as stated fails: no direct entry is a candidate file and the first
    subdirectory in listing order is [PingClient], whose own search finds
    nothing, yet [find_file] looks into the later sibling [sub] and returns
    the file found there. *)
Lemma find_file_passes_over_first_subdirectory :
  (forall e, In e shadowed_entries -> is_candidate "PingClient" e = false)
  /\ find (fun e => isdir (snd e)) shadowed_entries
     = Some ("PingClient", Dir [("notes.txt", File)])
  /\ find_file (Py.join "root" "PingClient") (Dir [("notes.txt", File)])
               "PingClient" = Returned None
  /\ find_file "root" (Dir shadowed_entries) "PingClient"
     = Returned (Some (mkCodeFile "root/sub" ".py" "Python")).
Proof.
  repeat split; try reflexivity.
  intros e [<-|[<-|[]]]; reflexivity.
Qed.

Lemma first_loop_app search_folder file_name :
  forall l1 l2 directories,
    first_loop search_folder file_name (l1 ++ l2) directories
    = match first_loop search_folder file_name l1 directories with
      | Return_ r => Return_ r
      | Fallthrough ds => first_loop search_folder file_name l2 ds
      end.
Proof.
  induction l1 as [|[d child] l1 IH]; intros l2 dirs; [reflexivity|].
  rewrite <- app_comm_cons, !first_loop_cons.
  destruct (String.eqb (stem d) file_name).
  - destruct (Py.contains _ (extension d)); [reflexivity|apply IH].
  - destruct (isdir child); apply IH.
Qed.

(** C10.  A directory entry whose name without extension is the target base
    name and whose extension is none of [.py], [.c], [.java] leaves the first
    loop as it found it: the entry is not returned and not appended to
    [directories].  The search therefore gives what it gives without the
    entry, whatever lies underneath it. *)
Theorem find_file_blind_to_unlisted_extension
    search_folder file_name before d child after :
  stem d = file_name ->
  Py.contains [".py"; ".c"; ".java"] (extension d) = false ->
  (forall directories,
      first_loop search_folder file_name ((d, child) :: after) directories
      = first_loop search_folder file_name after directories)
  /\ find_file search_folder (Dir (before ++ (d, child) :: after)) file_name
     = find_file search_folder (Dir (before ++ after)) file_name
  /\ (forall child',
         find_file search_folder (Dir (before ++ (d, child) :: after)) file_name
         = find_file search_folder (Dir (before ++ (d, child') :: after))
                     file_name).
Proof.
  intros Hstem Hext.
  assert (Hstep : forall c directories,
             first_loop search_folder file_name ((d, c) :: after) directories
             = first_loop search_folder file_name after directories).
  { intros c dirs. rewrite first_loop_cons, Hstem, String.eqb_refl, Hext.
    reflexivity. }
  assert (Hdrop : forall c,
             find_file search_folder (Dir (before ++ (d, c) :: after)) file_name
             = find_file search_folder (Dir (before ++ after)) file_name).
  { intros c. rewrite !find_file_in_dir, !first_loop_app.
    destruct (first_loop search_folder file_name before []) as [r|ds];
      [reflexivity|].
    now rewrite Hstep. }
  split; [apply Hstep|]. split; [apply Hdrop|].
  intros child'. now rewrite !Hdrop.
Qed.

Lemma find_file_blind_to_unlisted_extension_witness :
  stem "PingClient" = "PingClient"
  /\ Py.contains [".py"; ".c"; ".java"] (extension "PingClient") = false
  /\ find_file "root"
       (Dir ([("a.txt", File)]
             ++ ("PingClient", Dir [("PingClient.py", File)]) :: []))
       "PingClient"
     = find_file "root" (Dir ([("a.txt", File)] ++ [])) "PingClient".
Proof.
  split; [reflexivity|]. split; [reflexivity|].
  apply (find_file_blind_to_unlisted_extension "root" "PingClient"
           [("a.txt", File)] "PingClient" (Dir [("PingClient.py", File)]) []);
    reflexivity.
Defined.

Example find_file_under_namesake :
  find_file "root" (Dir [("PingClient", Dir [("PingClient.py", File)])])
            "PingClient" = Returned None.
Proof. reflexivity. Qed.

(** ** Worlds and traces *)

Lemma grows_refl w : grows w w [].
Proof. unfold grows. now rewrite app_nil_r. Qed.

Lemma grows_trans w w1 w2 e1 e2 :
  grows w w1 e1 -> grows w1 w2 e2 -> grows w w2 (e1 ++ e2).
Proof.
  intros (T1 & C1 & S1) (T2 & C2 & S2). unfold grows.
  rewrite T2, T1, C2, C1, S2, S1, app_assoc. auto.
Qed.

Lemma grows_emit w e : grows w (emit e w) [e].
Proof. unfold grows. cbn. auto. Qed.

Lemma occurrences_app p l1 l2 :
  occurrences p (l1 ++ l2) = occurrences p l1 + occurrences p l2.
Proof. unfold occurrences. now rewrite filter_app, length_app. Qed.

Lemma get_output_eq client timeout w :
  get_output client timeout w
  = (match outcome (next_poll w client) with
     | StillRunning =>
         Returned (mkProcess (pid client) (out_stream client) true
                             (S (polled client)))
     | FoundDead =>
         Returned (mkProcess (pid client) (out_stream client) false
                             (S (polled client)))
     | ChildEnded => Raised ChildProcessError
     end, polled_world client timeout w).
Proof.
  unfold get_output, next_poll, polled_world.
  destruct (outcome _); reflexivity.
Qed.

Lemma polling_lines pid file ls :
  Forall (polling_event pid) (map (EvWriteLine file) ls).
Proof.
  apply Forall_forall. intros e He. apply in_map_iff in He as (l & <- & _).
  right. eauto.
Qed.

Lemma occurrences_lines p file ls :
  (forall l, p (EvWriteLine file l) = false) ->
  occurrences p (map (EvWriteLine file) ls) = 0.
Proof.
  intros Hp. unfold occurrences. induction ls as [|l ls IH]; [reflexivity|].
  cbn. now rewrite Hp.
Qed.

(** What one [get_output] adds to the trace. *)
Lemma polled_world_grows client w :
  exists evs,
    grows w (polled_world client (1 # 10) w) evs
    /\ Forall (polling_event (pid client)) evs
    /\ occurrences is_poll evs = 1.
Proof.
  eexists. split; [|split].
  - unfold grows, polled_world. cbn. eauto.
  - constructor; [now left|apply polling_lines].
  - change (EvPoll ?a ?b :: ?l) with ([EvPoll a b] ++ l).
    rewrite occurrences_app, occurrences_lines by reflexivity. reflexivity.
Qed.

Lemma polling_event_inside pid e : polling_event pid e -> inside_stream e.
Proof. intros [->|(f & l & ->)]; split; reflexivity. Qed.

Lemma polling_event_no_kill pid evs :
  Forall (polling_event pid) evs -> occurrences is_kill evs = 0.
Proof.
  unfold occurrences. induction 1 as [|e evs He _ IH]; [reflexivity|].
  destruct He as [->|(f & l & ->)]; exact IH.
Qed.

(** ** The polling loop *)

Lemma poll_loop_step client count w :
  poll_loop client count w =
  match get_output client (1 # 10) w with
  | (Raised e, w1) => (Raised e, w1)
  | (Returned client1, w1) =>
      if (150 <? count + 1)%nat
      then (kill_process client1 ;;; ret TIMEOUT) w1
      else poll_loop client1 (count + 1) w1
  end.
Proof.
  simp poll_loop.
  destruct (get_output client (1 # 10) w) as [[c1|e] w1]; simp poll_loop;
    [|reflexivity].
  destruct (inspect (150 <? count + 1)%nat) as [[|] Hx];
    simp poll_loop; rewrite Hx; reflexivity.
Qed.

(** A loop entered with [count] whose next [151 - count] polls all return
    makes exactly these polls, kills the child and returns [TIMEOUT]. *)
Lemma poll_loop_times_out :
  forall n client count w,
    count + S n = 151 ->
    (forall i, i <= n ->
       outcome (child w (pid client) (polled client + i)) <> ChildEnded) ->
    exists w' evs,
      poll_loop client count w = (Returned TIMEOUT, w')
      /\ grows w w' (evs ++ [EvKill (pid client)])
      /\ Forall (polling_event (pid client)) evs
      /\ occurrences is_poll evs = S n.
Proof.
  induction n as [|n IH]; intros c count w Hcount Hq;
    rewrite poll_loop_step, get_output_eq;
    pose proof (Hq 0 (Nat.le_0_l _)) as H0; rewrite Nat.add_0_r in H0;
    fold (next_poll w c) in H0;
    destruct (polled_world_grows c w) as (e1 & G1 & P1 & N1).
  - assert (Hlt : (150 <? count + 1)%nat = true) by (apply Nat.ltb_lt; lia).
    rewrite Hlt.
    destruct (outcome (next_poll w c)); try congruence;
      (eexists; exists e1; split; [reflexivity|]; split; [|now split];
       apply (grows_trans _ _ _ _ _ G1); apply grows_emit).
  - assert (Hlt : (150 <? count + 1)%nat = false) by (apply Nat.ltb_ge; lia).
    rewrite Hlt.
    destruct G1 as (T1 & C1 & S1).
    assert (Hnext : forall alive,
      exists w' evs,
        poll_loop (mkProcess (pid c) (out_stream c) alive (S (polled c)))
                  (count + 1) (polled_world c (1 # 10) w)
        = (Returned TIMEOUT, w')
        /\ grows w w' (evs ++ [EvKill (pid c)])
        /\ Forall (polling_event (pid c)) evs
        /\ occurrences is_poll evs = S (S n)).
    { intros alive.
      destruct (IH (mkProcess (pid c) (out_stream c) alive (S (polled c)))
                   (count + 1) (polled_world c (1 # 10) w))
        as (w' & evs & E & G & P & N).
      - lia.
      - intros i Hi. cbn [pid polled]. rewrite C1.
        replace (S (polled c) + i) with (polled c + S i) by lia.
        apply Hq. lia.
      - exists w', (e1 ++ evs). split; [exact E|]. split; [|split].
        + rewrite <- app_assoc.
          exact (grows_trans _ _ _ _ _ (conj T1 (conj C1 S1)) G).
        + apply Forall_app. now split.
        + rewrite occurrences_app, N1, N. reflexivity. }
    destruct (outcome (next_poll w c)); try congruence; apply Hnext.
Qed.

(** A loop whose [k] next polls return and whose following poll signals the
    end of the child, with [count + k <= 150], is left by that exception;
    nothing is killed. *)
Lemma poll_loop_child_ends :
  forall k client count w,
    count + k <= 150 ->
    (forall i, i < k ->
       outcome (child w (pid client) (polled client + i)) <> ChildEnded) ->
    outcome (child w (pid client) (polled client + k)) = ChildEnded ->
    exists w' evs,
      poll_loop client count w = (Raised ChildProcessError, w')
      /\ grows w w' evs
      /\ Forall (polling_event (pid client)) evs
      /\ occurrences is_poll evs = S k.
Proof.
  induction k as [|k IH]; intros c count w Hcount Hq Hend;
    rewrite poll_loop_step, get_output_eq;
    destruct (polled_world_grows c w) as (e1 & G1 & P1 & N1).
  - rewrite Nat.add_0_r in Hend. fold (next_poll w c) in Hend. rewrite Hend.
    eauto 10.
  - assert (Hlt : (150 <? count + 1)%nat = false) by (apply Nat.ltb_ge; lia).
    rewrite Hlt.
    pose proof (Hq 0 (Nat.lt_0_succ _)) as H0; rewrite Nat.add_0_r in H0;
      fold (next_poll w c) in H0.
    destruct G1 as (T1 & C1 & S1).
    assert (Hnext : forall alive,
      exists w' evs,
        poll_loop (mkProcess (pid c) (out_stream c) alive (S (polled c)))
                  (count + 1) (polled_world c (1 # 10) w)
        = (Raised ChildProcessError, w')
        /\ grows w w' evs
        /\ Forall (polling_event (pid c)) evs
        /\ occurrences is_poll evs = S (S k)).
    { intros alive.
      destruct (IH (mkProcess (pid c) (out_stream c) alive (S (polled c)))
                   (count + 1) (polled_world c (1 # 10) w))
        as (w' & evs & E & G & P & N).
      - lia.
      - intros i Hi. cbn [pid polled]. rewrite C1.
        replace (S (polled c) + i) with (polled c + S i) by lia.
        apply Hq. lia.
      - cbn [pid polled]. rewrite C1.
        replace (S (polled c) + k) with (polled c + S k) by lia. exact Hend.
      - exists w', (e1 ++ evs). split; [exact E|]. split; [|split].
        + exact (grows_trans _ _ _ _ _ (conj T1 (conj C1 S1)) G).
        + apply Forall_app. now split.
        + rewrite occurrences_app, N1, N. reflexivity. }
    destruct (outcome (next_poll w c)); try congruence; apply Hnext.
Qed.

(** Whatever the child does, the loop only polls and, at most, kills. *)
Lemma poll_loop_inside :
  forall n client count w r w',
    151 - count <= n ->
    poll_loop client count w = (r, w') ->
    exists evs, grows w w' evs /\ Forall inside_stream evs.
Proof.
  induction n as [|n IH]; intros c count w r w' Hn;
    rewrite poll_loop_step, get_output_eq;
    destruct (polled_world_grows c w) as (e1 & G1 & P1 & _);
    assert (I1 : Forall inside_stream e1)
      by (eapply Forall_impl; [apply (polling_event_inside (pid c))|exact P1]).
  - assert (Hlt : (150 <? count + 1)%nat = true) by (apply Nat.ltb_lt; lia).
    rewrite Hlt.
    destruct (outcome (next_poll w c)); intros [= <- <-];
      try (exists (e1 ++ [EvKill (pid c)]); split;
           [apply (grows_trans _ _ _ _ _ G1), grows_emit
           |apply Forall_app; split; [exact I1|repeat constructor]]).
    exists e1. now split.
  - destruct ((150 <? count + 1)%nat) eqn:Hlt.
    + destruct (outcome (next_poll w c)); intros [= <- <-];
        try (exists (e1 ++ [EvKill (pid c)]); split;
             [apply (grows_trans _ _ _ _ _ G1), grows_emit
             |apply Forall_app; split; [exact I1|repeat constructor]]).
      exists e1. now split.
    + apply Nat.ltb_ge in Hlt.
      destruct (outcome (next_poll w c)); intros E;
        try (apply IH in E; [|lia]; destruct E as (evs & G & I);
             exists (e1 ++ evs); split;
             [exact (grows_trans _ _ _ _ _ G1 G)|apply Forall_app; now split]).
      injection E as <- <-. exists e1. now split.
Qed.

(** ** [run_lab_2_code] *)

(** Lines 77-99 begin with a poll of timeout 0.1 and stay inside the
    stream. *)
Lemma watch_client_shape exec_start_time client w r w' :
  watch_client exec_start_time client w = (r, w') ->
  exists rest,
    grows w w' (EvPoll (pid client) (1 # 10) :: rest)
    /\ Forall inside_stream rest.
Proof.
  unfold watch_client, bind. rewrite get_output_eq.
  assert (G1 : exists ls,
             grows w (polled_world client (1 # 10) w)
                   (EvPoll (pid client) (1 # 10) :: ls)
             /\ Forall inside_stream ls).
  { exists (map (EvWriteLine (file_name (out_stream client)))
                 (lines (next_poll w client))).
    split; [unfold grows, polled_world; cbn; auto|].
    eapply Forall_impl;
      [apply (polling_event_inside (pid client))|apply polling_lines]. }
  destruct G1 as (ls & G1 & I1).
  destruct (outcome (next_poll w client)); cbn [is_alive negb].
  - unfold try_except.
    destruct (poll_loop _ 0 _) as [[st|e] w1] eqn:E;
      apply (poll_loop_inside 151) in E; try lia;
      destruct E as (evs & G & I).
    + intros [= <- <-]. exists (ls ++ evs). split.
      * exact (grows_trans _ _ _ _ _ G1 G).
      * apply Forall_app. now split.
    + assert (Hw : w' = w1 -> exists rest,
                 grows w w' (EvPoll (pid client) (1 # 10) :: rest)
                 /\ Forall inside_stream rest).
      { intros ->. exists (ls ++ evs). split.
        - exact (grows_trans _ _ _ _ _ G1 G).
        - apply Forall_app. now split. }
      destruct (Exn_eqb e ChildProcessError).
      * unfold time_time. destruct (Qltb _ 2); intros [= <- <-]; now apply Hw.
      * intros [= <- <-]. now apply Hw.
  - intros [= <- <-]. exists ls. now split.
  - intros [= <- <-]. exists ls. now split.
Qed.

(** For Python and Java the classifier launches the command, after the
    compile step for Java, and hands the new client to lines 77-99 together
    with the clock reading taken on entry. *)
Lemma run_lab_2_code_launches code_file_dir code_lang out port_num w :
  code_lang = "Python" \/ code_lang = "Java" ->
  exists w0 pre command,
    run_lab_2_code code_file_dir code_lang out port_num w
    = watch_client (clock w) (fresh_client w out) w0
    /\ grows w w0 (pre ++ [EvSpawn (spawned w) (clock w0) command code_file_dir])
    /\ Forall (fun e => exists c, e = EvSystem c) pre
    /\ (code_lang = "Python" -> clock w0 = clock w)
    /\ (code_lang = "Java" ->
        clock w0 = (clock w + system_secs w (compiled w))%Q).
Proof.
  intros [-> | ->].
  - exists (snd (ProcessHandler_new
                   ("python PingClient.py localhost " ++ Py.str_of_N port_num)
                   out code_file_dir w)), [],
           ("python PingClient.py localhost " ++ Py.str_of_N port_num)%string.
    split; [reflexivity|].
    split; [|split; [constructor|split; [reflexivity|discriminate]]].
    unfold grows. cbn. auto.
  - exists (snd (ProcessHandler_new
                   ("java PingClient localhost " ++ Py.str_of_N port_num)
                   out code_file_dir
                   (snd (os_system
                           ("javac " ++ Py.join code_file_dir "PingClient.java")
                           w)))),
           [EvSystem ("javac " ++ Py.join code_file_dir "PingClient.java")],
           ("java PingClient localhost " ++ Py.str_of_N port_num)%string.
    split; [reflexivity|].
    split; [|split; [repeat econstructor|split; [discriminate|reflexivity]]].
    unfold grows. cbn. rewrite <- app_assoc. auto.
Qed.

Lemma occurrences_none p evs :
  Forall (fun e => p e = false) evs -> occurrences p evs = 0.
Proof.
  unfold occurrences. induction 1 as [|e evs He _ IH]; [reflexivity|].
  cbn. now rewrite He.
Qed.

Lemma occurrences_system p pre :
  (forall c, p (EvSystem c) = false) ->
  Forall (fun e => exists c, e = EvSystem c) pre ->
  occurrences p pre = 0.
Proof.
  intros Hp H. apply occurrences_none.
  eapply Forall_impl; [|exact H]. intros e [c ->]. apply Hp.
Qed.

Lemma Qltb_lt x y : Qltb x y = true <-> (x < y)%Q.
Proof.
  unfold Qltb. rewrite negb_true_iff. split.
  - intros H. apply Qnot_le_lt. intros Hle.
    apply Qle_bool_iff in Hle. congruence.
  - intros H. destruct (Qle_bool y x) eqn:E; [|reflexivity].
    apply Qle_bool_iff in E. exfalso. exact (Qlt_not_le _ _ H E).
Qed.

Lemma Qltb_ge x y : Qltb x y = false <-> (y <= x)%Q.
Proof.
  unfold Qltb. rewrite negb_false_iff. apply Qle_bool_iff.
Qed.

(** The first check when the poll returns.  For Python and Java the event
    that follows the launch is a poll with the 0.1 timeout.  When that first
    call returns having found the child dead, the outcome is
    [EXECUTION_FAILED] whatever the clock says: this one poll is the only
    one, and nothing is killed. *)
Theorem first_check_decides code_file_dir code_lang out port_num w :
  code_lang = "Python" \/ code_lang = "Java" ->
  (forall r w',
      run_lab_2_code code_file_dir code_lang out port_num w = (r, w') ->
      exists pre at_time command rest,
        trace w' = trace w ++ pre
                   ++ EvSpawn (spawned w) at_time command code_file_dir
                   :: EvPoll (spawned w) (1 # 10) :: rest
        /\ occurrences is_poll pre = 0)
  /\ (outcome (child w (spawned w) 0) = FoundDead ->
      exists w' evs,
        run_lab_2_code code_file_dir code_lang out port_num w
        = (Returned EXECUTION_FAILED, w')
        /\ grows w w' evs
        /\ occurrences is_poll evs = 1
        /\ occurrences is_kill evs = 0).
Proof.
  intros Hlang.
  destruct (run_lab_2_code_launches code_file_dir _ out port_num w Hlang)
    as (w0 & pre & command & E & G0 & Hpre & _).
  rewrite E. split.
  - intros r w' Hrun. apply watch_client_shape in Hrun as (rest & G & _).
    destruct (grows_trans _ _ _ _ _ G0 G) as (T & _).
    exists pre, (clock w0), command, rest. split.
    + rewrite T, <- app_assoc. reflexivity.
    + now apply occurrences_system.
  - intros Hdead. destruct G0 as (T0 & C0 & S0).
    unfold watch_client, bind. rewrite get_output_eq.
    unfold next_poll, fresh_client. cbn [pid polled]. rewrite C0, Hdead.
    cbn [is_alive negb]. eexists. eexists. split; [reflexivity|].
    split; [|split].
    + eapply grows_trans; [exact (conj T0 (conj C0 S0))|].
      unfold grows, polled_world. cbn. eauto.
    + rewrite !occurrences_app, occurrences_system by auto.
      change (EvPoll ?a ?b :: ?l) with ([EvPoll a b] ++ l).
      rewrite occurrences_app, occurrences_lines by reflexivity. reflexivity.
    + rewrite !occurrences_app, occurrences_system by auto.
      change (EvPoll ?a ?b :: ?l) with ([EvPoll a b] ++ l).
      rewrite occurrences_app, occurrences_lines by reflexivity. reflexivity.
Qed.

Lemma first_check_decides_witness :
  outcome (child (start dead_on_launch 0) 0 0) = FoundDead
  /\ exists w' evs,
       run_lab_2_code "cls/z1" "Java" sink 12000 (start dead_on_launch 0)
       = (Returned EXECUTION_FAILED, w')
       /\ grows (start dead_on_launch 0) w' evs
       /\ occurrences is_poll evs = 1
       /\ occurrences is_kill evs = 0.
Proof.
  split; [reflexivity|].
  apply (first_check_decides "cls/z1" "Java" sink 12000
           (start dead_on_launch 0)); [right|]; reflexivity.
Defined.

(** C3 fails where the first poll raises.  A child that ended before it was
    ever seen alive makes the call of line 78 raise: the check of line 79 is
    never reached and the classification is not [EXECUTION_FAILED] but the
    exception [ChildProcessError], although this poll was the only one, the
    loop was never entered and nothing was written or killed.  A child that
    the first poll finds dead on returning is classified
    [EXECUTION_FAILED]. *)
Theorem dead_before_first_poll_is_not_classified :
  let w := start ends_at_first_poll 0 in
  let r := run_lab_2_code "cls/z1" "Java" sink 12000 w in
  poll_outcome w 0 = ChildEnded
  /\ fst r = Raised ChildProcessError
  /\ fst r <> Returned EXECUTION_FAILED
  /\ occurrences is_poll (trace (snd r)) = 1
  /\ occurrences is_kill (trace (snd r)) = 0
  /\ fst (run_lab_2_code "cls/z1" "Java" sink 12000 (start dead_on_launch 0))
     = Returned EXECUTION_FAILED.
Proof. vm_compute. repeat split. discriminate. Qed.

(** The first poll of a client found alive, as lines 77-81 see it. *)
Lemma first_poll_alive exec_start_time out w w0 :
  child w0 = child w ->
  outcome (child w (spawned w) 0) = StillRunning ->
  watch_client exec_start_time (fresh_client w out) w0
  = try_except
      (poll_loop (mkProcess (spawned w) out true 1) 0)
      ChildProcessError
      (now <- time_time ;;
       if Qltb (now - exec_start_time) 2 then ret UNEXPECTED_TERMINATION
       else ret OK)
      (polled_world (fresh_client w out) (1 # 10) w0).
Proof.
  intros C0 Halive. unfold watch_client, bind. rewrite get_output_eq.
  unfold next_poll, fresh_client. cbn [pid polled]. rewrite C0, Halive.
  reflexivity.
Qed.

(** C2, as amended.  A Python or Java child that is alive at the first check
    and whose next 151 polls all return is killed once the loop has made
    exactly 151 iterations, the first at which the poll counter exceeds 150:
    the trace gains 152 polls of timeout 0.1, the first check included, then
    a single kill, and the outcome is [TIMEOUT]. *)
Theorem timeout_after_151_iterations code_file_dir code_lang out port_num w :
  code_lang = "Python" \/ code_lang = "Java" ->
  outcome (child w (spawned w) 0) = StillRunning ->
  (forall i, 1 <= i <= 151 ->
     outcome (child w (spawned w) i) <> ChildEnded) ->
  exists w' evs,
    run_lab_2_code code_file_dir code_lang out port_num w
    = (Returned TIMEOUT, w')
    /\ trace w' = trace w ++ evs ++ [EvKill (spawned w)]
    /\ occurrences is_poll evs = 1 + 151
    /\ occurrences is_kill (evs ++ [EvKill (spawned w)]) = 1
    /\ (forall p t, In (EvPoll p t) evs -> p = spawned w /\ t = 1 # 10).
Proof.
  intros Hlang Halive Hquiet.
  destruct (run_lab_2_code_launches code_file_dir _ out port_num w Hlang)
    as (w0 & pre & command & E & G0 & Hpre & _).
  rewrite E. pose proof G0 as (T0 & C0 & S0).
  rewrite (first_poll_alive _ _ _ _ C0 Halive).
  destruct (polled_world_grows (fresh_client w out) w0) as (e1 & G1 & P1 & N1).
  pose proof G1 as (T1 & C1 & S1).
  destruct (poll_loop_times_out 150 (mkProcess (spawned w) out true 1) 0
              (polled_world (fresh_client w out) (1 # 10) w0))
    as (w' & evs & Eloop & G & P & N).
  - reflexivity.
  - intros i Hi. cbn [pid polled]. rewrite C1, C0. apply Hquiet. lia.
  - cbn [pid] in *. unfold try_except. rewrite Eloop.
    pose proof (grows_trans _ _ _ _ _ (grows_trans _ _ _ _ _ G0 G1) G)
      as (T & _).
    exists w', ((pre ++ [EvSpawn (spawned w) (clock w0) command code_file_dir])
                ++ e1 ++ evs).
    split; [reflexivity|]. split; [|split; [|split]].
    + rewrite T, <- !app_assoc. reflexivity.
    + rewrite !occurrences_app, N1, N, occurrences_system by auto.
      reflexivity.
    + rewrite !occurrences_app, occurrences_system by auto.
      rewrite (polling_event_no_kill _ _ P1), (polling_event_no_kill _ _ P).
      reflexivity.
    + intros p t Hin.
      assert (Hpoll : In (EvPoll p t) (e1 ++ evs)).
      { apply in_app_or in Hin as [Hin|Hin]; [|exact Hin].
        apply in_app_or in Hin as [Hin|[Hin|[]]]; [|discriminate].
        rewrite Forall_forall in Hpre. destruct (Hpre _ Hin). discriminate. }
      assert (HP : Forall (polling_event (spawned w)) (e1 ++ evs))
        by (apply Forall_app; now split).
      rewrite Forall_forall in HP.
      destruct (HP _ Hpoll) as [[= -> ->]|(f & l & [=])]. now split.
Qed.

Lemma timeout_after_151_iterations_witness :
  outcome (child (start never_exits 0) 0 0) = StillRunning
  /\ exists w' evs,
       run_lab_2_code "cls/z1" "Python" sink 12000 (start never_exits 0)
       = (Returned TIMEOUT, w')
       /\ trace w' = trace (start never_exits 0) ++ evs ++ [EvKill 0]
       /\ occurrences is_poll evs = 1 + 151
       /\ occurrences is_kill (evs ++ [EvKill 0]) = 1
       /\ (forall p t, In (EvPoll p t) evs -> p = 0 /\ t = 1 # 10).
Proof.
  split; [reflexivity|].
  apply (timeout_after_151_iterations "cls/z1" "Python" sink 12000
           (start never_exits 0)).
  - left. reflexivity.
  - reflexivity.
  - intros i _. discriminate.
Defined.

(** C2 as stated fails: a child that never exits is polled 152 times, the
    first check and 151 iterations of the loop, before it is killed; and a
    child that signals its end at the 151st iteration is still classified by
    the clock, not killed. *)
Lemma kill_comes_after_151_loop_polls :
  let r := run_lab_2_code "cls/z1" "Python" sink 12000 (start never_exits 0) in
  let r' := run_lab_2_code "cls/z1" "Python" sink 12000 (start (ends_at 151) 0) in
  fst r = Returned TIMEOUT
  /\ occurrences is_poll (trace (snd r)) = 1 + 151
  /\ occurrences is_kill (trace (snd r)) = 1
  /\ fst r' = Returned OK
  /\ occurrences is_poll (trace (snd r')) = 1 + 151
  /\ occurrences is_kill (trace (snd r')) = 0.
Proof. vm_compute. repeat split. Qed.

(** What lines 94-99 do.  A Python or Java child that is alive at the first
    check and signals its end at an iteration of the loop, after [k <= 150]
    iterations that returned, is judged by the clock reading taken on entry
    to [run_lab_2_code]: less than 2 later is [UNEXPECTED_TERMINATION], 2 or
    more is [OK].  Nothing is killed. *)
Lemma natural_exit_judged_from_entry code_file_dir code_lang out port_num w k :
  code_lang = "Python" \/ code_lang = "Java" ->
  outcome (child w (spawned w) 0) = StillRunning ->
  k <= 150 ->
  (forall i, 1 <= i <= k -> outcome (child w (spawned w) i) <> ChildEnded) ->
  outcome (child w (spawned w) (S k)) = ChildEnded ->
  exists st w' evs,
    run_lab_2_code code_file_dir code_lang out port_num w = (Returned st, w')
    /\ ((clock w' - clock w < 2)%Q -> st = UNEXPECTED_TERMINATION)
    /\ ((2 <= clock w' - clock w)%Q -> st = OK)
    /\ grows w w' evs
    /\ occurrences is_poll evs = k + 2
    /\ occurrences is_kill evs = 0.
Proof.
  intros Hlang Halive Hk Hquiet Hend.
  destruct (run_lab_2_code_launches code_file_dir _ out port_num w Hlang)
    as (w0 & pre & command & E & G0 & Hpre & _).
  rewrite E. pose proof G0 as (T0 & C0 & S0).
  rewrite (first_poll_alive _ _ _ _ C0 Halive).
  destruct (polled_world_grows (fresh_client w out) w0) as (e1 & G1 & P1 & N1).
  pose proof G1 as (T1 & C1 & S1).
  destruct (poll_loop_child_ends k (mkProcess (spawned w) out true 1) 0
              (polled_world (fresh_client w out) (1 # 10) w0))
    as (w' & evs & Eloop & G & P & N).
  - exact Hk.
  - intros i Hi. cbn [pid polled]. rewrite C1, C0. apply Hquiet. lia.
  - cbn [pid polled]. rewrite C1, C0. exact Hend.
  - cbn [pid] in *. unfold try_except. rewrite Eloop. cbn [Exn_eqb].
    unfold bind, time_time.
    exists (if Qltb (clock w' - clock w) 2 then UNEXPECTED_TERMINATION else OK),
           w',
           ((pre ++ [EvSpawn (spawned w) (clock w0) command code_file_dir])
            ++ e1 ++ evs).
    split; [destruct (Qltb _ 2); reflexivity|].
    split; [|split; [|split; [|split]]].
    + intros Hlt. apply Qltb_lt in Hlt. now rewrite Hlt.
    + intros Hge. apply Qltb_ge in Hge. now rewrite Hge.
    + rewrite app_assoc.
      exact (grows_trans _ _ _ _ _ (grows_trans _ _ _ _ _ G0 G1) G).
    + rewrite !occurrences_app, N1, N, occurrences_system by auto.
      cbn. lia.
    + rewrite !occurrences_app, occurrences_system by auto.
      rewrite (polling_event_no_kill _ _ P1), (polling_event_no_kill _ _ P).
      reflexivity.
Qed.

(** On the Python path the child is launched at the clock reading taken on
    entry; on the Java path the compile step comes in between. *)
Lemma launch_time code_file_dir code_lang out port_num w r w' :
  code_lang = "Python" \/ code_lang = "Java" ->
  run_lab_2_code code_file_dir code_lang out port_num w = (r, w') ->
  exists command,
    In (EvSpawn (spawned w)
                (if String.eqb code_lang "Java"
                 then clock w + system_secs w (compiled w) else clock w)%Q
                command code_file_dir)
       (trace w').
Proof.
  intros Hlang Hrun.
  destruct (run_lab_2_code_launches code_file_dir _ out port_num w Hlang)
    as (w0 & pre & command & E & G0 & _ & Hpy & Hjava).
  rewrite E in Hrun. apply watch_client_shape in Hrun as (rest & G & _).
  destruct (grows_trans _ _ _ _ _ G0 G) as (T & _).
  exists command. rewrite T.
  apply in_or_app. right. apply in_or_app. left.
  apply in_or_app. right. left.
  destruct Hlang as [-> | ->]; cbn [String.eqb Ascii.eqb Bool.eqb].
  - now rewrite Hpy.
  - now rewrite Hjava.
Qed.

(** C1 fails on the Java path.  The compile step takes 3 s; the child is
    launched at time 3, is alive at the first check and signals its end two
    polls later, 0.3 s after its launch.  The clock then reads 3.3 s past the
    reading taken on entry, and the outcome is [OK]. *)
Theorem java_compile_time_counts_as_run_time :
  let w := start (ends_at 2) 3 in
  let r := run_lab_2_code "cls/z1" "Java" sink 12000 w in
  fst r = Returned OK
  /\ In (EvSpawn 0 3 "java PingClient localhost 12000" "cls/z1")
        (trace (snd r))
  /\ (clock (snd r) - 3 < 2)%Q
  /\ (2 <= clock (snd r) - clock w)%Q.
Proof.
  cbv zeta. split; [reflexivity|]. split.
  - vm_compute. right. left. reflexivity.
  - split; vm_compute; [reflexivity|discriminate].
Qed.

(** The same child under Python is [UNEXPECTED_TERMINATION]. *)
Example python_same_child_is_unexpected :
  fst (run_lab_2_code "cls/z1" "Python" sink 12000 (start (ends_at 2) 3))
  = Returned UNEXPECTED_TERMINATION.
Proof. reflexivity. Qed.

(** C4 fails at the first poll.  The call of line 78 stands outside the
    [try]: when it raises [ChildProcessError] the exception leaves
    [run_lab_2_code] and [run_individual_submission], and the automatic pass
    stops at that submission: its stream is not closed and the submissions
    after it are never opened. *)
Theorem first_poll_fault_escapes :
  let w := start ends_at_first_poll 0 in
  fst (run_lab_2_code "cls/z1" "Python" sink 12000 w)
  = Raised ChildProcessError
  /\ fst (run_individual_submission "cls/z1" (Dir [("PingClient.py", File)])
            sink w)
     = Raised ChildProcessError
  /\ (let r := mark_submissions_auto "cls" sample_class "out" [] ["n"] w in
      fst r = Raised ChildProcessError
      /\ map (fun e => match e with EvOpen f _ => f | _ => "" end)
             (filter is_open (trace (snd r)))
         = ["out/z1_output.txt"]
      /\ occurrences is_close (trace (snd r)) = 0).
Proof. vm_compute. repeat split. Qed.

(** A fault of a later poll is caught and becomes an outcome. *)
Example loop_poll_fault_is_caught :
  fst (run_lab_2_code "cls/z1" "Python" sink 12000 (start (ends_at 1) 0))
  = Returned UNEXPECTED_TERMINATION.
Proof. reflexivity. Qed.

(** C8.  With the language [C] the classifier returns [OK] at once: the only
    thing it does is to write the message to the sink; nothing is launched,
    compiled or polled.  So does the classification of a submission whose
    code file [find_file] reports with the language [C]. *)
Theorem c_language_short_circuits
    submission_path node code_file out port_num w :
  find_file submission_path node "PingClient" = Returned (Some code_file) ->
  language code_file = "C" ->
  let w' :=
    emit (EvWriteMessage (file_name out)
            "Code implemented in C, Please check manually!" false) w in
  run_lab_2_code (folder_path code_file) "C" out port_num w = (Returned OK, w')
  /\ run_individual_submission submission_path node out w = (Returned OK, w')
  /\ spawned w' = spawned w
  /\ compiled w' = compiled w
  /\ clock w' = clock w.
Proof.
  intros Hfind Hlang w'. split; [reflexivity|]. split; [|now repeat split].
  unfold run_individual_submission, bind, lift. rewrite Hfind, Hlang.
  reflexivity.
Qed.

Lemma c_language_short_circuits_witness :
  find_file "cls/z2" (Dir [("src", Dir [("PingClient.c", File)])]) "PingClient"
  = Returned (Some (mkCodeFile "cls/z2/src" ".c" "C"))
  /\ run_individual_submission "cls/z2"
       (Dir [("src", Dir [("PingClient.c", File)])]) sink (start never_exits 0)
     = (Returned OK,
        emit (EvWriteMessage "out/z1_output.txt"
                "Code implemented in C, Please check manually!" false)
             (start never_exits 0)).
Proof.
  split; [reflexivity|].
  apply (c_language_short_circuits "cls/z2"
           (Dir [("src", Dir [("PingClient.c", File)])])
           (mkCodeFile "cls/z2/src" ".c" "C") sink 12000%N
           (start never_exits 0)); reflexivity.
Defined.

(** ** Classification stays inside the stream *)

Lemma run_lab_2_code_inside code_file_dir code_lang out port_num w r w' :
  run_lab_2_code code_file_dir code_lang out port_num w = (r, w') ->
  exists evs, grows w w' evs /\ Forall inside_stream evs.
Proof.
  destruct (String.eqb code_lang "Python") eqn:Hpy;
    [|destruct (String.eqb code_lang "Java") eqn:Hjava].
  - apply String.eqb_eq in Hpy. intros Hrun.
    destruct (run_lab_2_code_launches code_file_dir code_lang out port_num w
                (or_introl Hpy)) as (w0 & pre & command & E & G0 & Hpre & _).
    rewrite E in Hrun. apply watch_client_shape in Hrun as (rest & G & I).
    eexists. split; [exact (grows_trans _ _ _ _ _ G0 G)|].
    apply Forall_app. split.
    + apply Forall_app. split; [|repeat constructor].
      eapply Forall_impl; [|exact Hpre]. intros e [c ->]. now split.
    + constructor; [now split|exact I].
  - apply String.eqb_eq in Hjava. intros Hrun.
    destruct (run_lab_2_code_launches code_file_dir code_lang out port_num w
                (or_intror Hjava)) as (w0 & pre & command & E & G0 & Hpre & _).
    rewrite E in Hrun. apply watch_client_shape in Hrun as (rest & G & I).
    eexists. split; [exact (grows_trans _ _ _ _ _ G0 G)|].
    apply Forall_app. split.
    + apply Forall_app. split; [|repeat constructor].
      eapply Forall_impl; [|exact Hpre]. intros e [c ->]. now split.
    + constructor; [now split|exact I].
  - unfold run_lab_2_code, bind, time_time. rewrite Hpy, Hjava.
    intros [= <- <-]. eexists. split; [apply grows_emit|].
    repeat constructor.
Qed.

Lemma run_individual_submission_inside submission_path node out w r w' :
  run_individual_submission submission_path node out w = (r, w') ->
  exists evs, grows w w' evs /\ Forall inside_stream evs.
Proof.
  unfold run_individual_submission, bind, lift.
  destruct (find_file submission_path node "PingClient") as [[cf|]|e].
  - apply run_lab_2_code_inside.
  - intros [= <- <-]. eexists. split; [apply grows_emit|].
    repeat constructor.
  - intros [= <- <-]. exists []. split; [apply grows_refl|constructor].
Qed.

(** ** The automatic pass *)

Section BatchProperties.

Context {table : ExecStatusTable}.

Lemma value_is_zero st : (value st =? 0)%Z = true <-> st = OK.
Proof.
  rewrite Z.eqb_eq. split; [apply value_zero|intros ->; apply value_OK].
Qed.

(** One submission of the automatic pass: the stream is opened, the
    submission classified, and only when the classification returns is the
    outcome recorded and the stream closed. *)
Lemma auto_body_shape class_path output_destination submission node failed
    w r w' :
  auto_body class_path output_destination submission node failed w = (r, w') ->
  let file := output_file output_destination submission in
  exists cr w1 evs,
    run_individual_submission (Py.join class_path submission) node
      (mkStream file None) (emit (EvOpen file None) w) = (cr, w1)
    /\ grows (emit (EvOpen file None) w) w1 evs
    /\ Forall inside_stream evs
    /\ match cr with
       | Returned st =>
           w' = emit (EvClose file) w1
           /\ r = Returned
                    (if negb (value st =? 0)%Z
                     then Py.setitem submission (get_description (value st))
                                     failed
                     else failed)
       | Raised e => w' = w1 /\ r = Raised e
       end.
Proof.
  intros Hrun file. unfold auto_body, bind, StreamHandler_new in Hrun.
  fold file in Hrun.
  destruct (run_individual_submission _ node _ _) as [cr w1] eqn:E.
  destruct (run_individual_submission_inside _ _ _ _ _ _ E) as (evs & G & I).
  exists cr, w1, evs. split; [reflexivity|]. split; [exact G|].
  split; [exact I|].
  destruct cr as [st|e]; cbn in Hrun; injection Hrun as <- <-; now split.
Qed.

Lemma keys_setitem k v d x :
  In x (Py.keys (Py.setitem k v d)) <-> x = k \/ In x (Py.keys d).
Proof.
  unfold Py.keys. induction d as [|[k' v'] d IH]; cbn.
  - intuition.
  - destruct (String.eqb_spec k' k) as [->|Hne]; cbn; [intuition|].
    rewrite IH. intuition.
Qed.

Lemma length_append s1 s2 :
  String.length (s1 ++ s2) = String.length s1 + String.length s2.
Proof. induction s1 as [|a s1 IH]; cbn; [reflexivity|now rewrite IH]. Qed.

Lemma append_inj_l s t1 t2 : (s ++ t1 = s ++ t2)%string -> t1 = t2.
Proof. induction s as [|a s IH]; cbn; [auto|]. intros [= H]. auto. Qed.

Lemma append_inj_r t : forall s1 s2, (s1 ++ t = s2 ++ t)%string -> s1 = s2.
Proof.
  induction s1 as [|a s1 IH]; intros [|b s2] H; cbn in H.
  - reflexivity.
  - apply (f_equal String.length) in H. cbn in H. rewrite length_append in H.
    lia.
  - apply (f_equal String.length) in H. cbn in H. rewrite length_append in H.
    lia.
  - injection H as -> H. f_equal. now apply IH.
Qed.

Lemma output_file_inj output_destination s1 s2 :
  output_file output_destination s1 = output_file output_destination s2 ->
  s1 = s2.
Proof.
  unfold output_file. intros H.
  apply append_inj_l, append_inj_l in H. exact (append_inj_r _ _ _ H).
Qed.

Lemma auto_for_filter class_path output_destination :
  forall class_submissions failed w,
    auto_for class_path output_destination class_submissions failed w
    = auto_for class_path output_destination
               (filter visible class_submissions) failed w.
Proof.
  induction class_submissions as [|[s node] rest IH]; intros failed w;
    [reflexivity|].
  cbn [auto_for filter]. unfold visible at 1. cbn [fst].
  destruct (Py.startswith s ".") eqn:Hdot; cbn [negb]; [apply IH|].
  cbn [auto_for]. rewrite Hdot. cbn [negb]. unfold bind.
  destruct (auto_body _ _ _ _ _ _) as [[f|e] w1]; [apply IH|reflexivity].
Qed.

Lemma auto_for_opens class_path output_destination :
  forall class_submissions failed w r w',
    auto_for class_path output_destination class_submissions failed w = (r, w')
    ->
    exists evs,
      grows w w' evs
      /\ (forall f t, In (EvOpen f t) evs ->
            exists s, In s (map fst class_submissions)
                      /\ Py.startswith s "." = false
                      /\ f = output_file output_destination s)
      /\ (forall failed', r = Returned failed' ->
            forall k, In k (Py.keys failed') ->
              In k (Py.keys failed)
              \/ (In k (map fst class_submissions)
                  /\ Py.startswith k "." = false)).
Proof.
  induction class_submissions as [|[s node] rest IH]; intros failed w r w'.
  - intros [= <- <-]. exists []. split; [apply grows_refl|].
    split; [intros f t []|]. intros failed' [= <-] k Hk. now left.
  - cbn [auto_for map fst].
    destruct (Py.startswith s ".") eqn:Hdot; cbn [negb].
    + intros Hrun. apply IH in Hrun as (evs & G & Hopen & Hkeys).
      exists evs. split; [exact G|]. split.
      * intros f t Hin. destruct (Hopen f t Hin) as (s' & ? & ? & ?).
        exists s'. split; [now right|now split].
      * intros failed' Hr k Hk.
        destruct (Hkeys failed' Hr k Hk) as [?|[? ?]]; [now left|].
        right. split; [now right|assumption].
    + unfold bind.
      destruct (auto_body _ _ s node failed w) as [rb w1] eqn:Eb.
      apply auto_body_shape in Eb as (cr & w2 & evs & _ & G & I & Hcr).
      assert (Hbody : exists evs1,
                 grows w w1 (EvOpen (output_file output_destination s) None
                             :: evs1)
                 /\ Forall (fun e => is_open e = false) evs1).
      { destruct cr as [st|ex]; destruct Hcr as [-> _].
        - exists (evs ++ [EvClose (output_file output_destination s)]). split.
          + apply (grows_trans _ _ _ [_] _ (grows_emit _ _)).
            apply (grows_trans _ _ _ _ _ G), grows_emit.
          + apply Forall_app. split; [|repeat constructor].
            eapply Forall_impl; [|exact I]. now intros ev [? _].
        - exists evs. split.
          + exact (grows_trans _ _ _ [_] _ (grows_emit _ _) G).
          + eapply Forall_impl; [|exact I]. now intros ev [? _]. }
      destruct Hbody as (evs1 & G1 & O1).
      destruct rb as [failed1|e].
      * intros Hrun. apply IH in Hrun as (evs2 & G2 & Hopen & Hkeys).
        exists ((EvOpen (output_file output_destination s) None :: evs1)
                ++ evs2).
        split; [exact (grows_trans _ _ _ _ _ G1 G2)|]. split.
        -- intros f t Hin. apply in_app_or in Hin as [[Hin|Hin]|Hin].
           ++ injection Hin as <- <-. exists s. split; [now left|now split].
           ++ rewrite Forall_forall in O1. now apply O1 in Hin.
           ++ destruct (Hopen f t Hin) as (s' & ? & ? & ?).
              exists s'. split; [now right|now split].
        -- intros failed' Hr k Hk.
           destruct (Hkeys failed' Hr k Hk) as [Hk1|[? ?]].
           ++ destruct cr as [st|ex]; destruct Hcr as [_ [= ->]].
              destruct (negb (value st =? 0)%Z); [|now left].
              apply keys_setitem in Hk1 as [->|?]; [|now left].
              right. split; [now left|assumption].
           ++ right. split; [now right|assumption].
      * intros [= <- <-].
        exists (EvOpen (output_file output_destination s) None :: evs1).
        split; [exact G1|]. split.
        -- intros f t [Hin|Hin].
           ++ injection Hin as <- <-. exists s. split; [now left|now split].
           ++ rewrite Forall_forall in O1. now apply O1 in Hin.
        -- intros failed' [=].
Qed.

(** C9.  The automatic pass runs as if the entries whose name starts with a
    dot were not in the class folder: the pass over the whole listing is the
    pass over the listing without them.  No stream is opened on the output
    file of such an entry, and the pass never adds one to the ledger. *)
Theorem hidden_entries_are_skipped
    class_path output_destination class_submissions failed w r w' :
  auto_for class_path output_destination class_submissions failed w = (r, w')
  ->
  auto_for class_path output_destination (filter visible class_submissions)
           failed w = (r, w')
  /\ (exists evs,
        grows w w' evs
        /\ forall h t, Py.startswith h "." = true ->
             ~ In (EvOpen (output_file output_destination h) t) evs)
  /\ (forall failed', r = Returned failed' ->
        forall h, Py.startswith h "." = true ->
          In h (Py.keys failed') -> In h (Py.keys failed)).
Proof.
  intros Hrun. split; [now rewrite <- auto_for_filter|].
  apply auto_for_opens in Hrun as (evs & G & Hopen & Hkeys). split.
  - exists evs. split; [exact G|]. intros h t Hdot Hin.
    destruct (Hopen _ _ Hin) as (s & _ & Hs & Heq).
    apply output_file_inj in Heq. congruence.
  - intros failed' Hr h Hdot Hin.
    destruct (Hkeys failed' Hr h Hin) as [?|[_ ?]]; [assumption|congruence].
Qed.

End BatchProperties.

Lemma hidden_entries_are_skipped_witness :
  let w := start dead_on_launch 0 in
  let r := auto_for "cls" "out"
             [(".git", Dir [("PingClient.py", File)]);
              ("z3", Dir [("readme.txt", File)])] [] w in
  auto_for "cls" "out"
    (filter visible [(".git", Dir [("PingClient.py", File)]);
                     ("z3", Dir [("readme.txt", File)])]) [] w
  = (fst r, snd r)
  /\ fst r = Returned [("z3", "File not found")].
Proof.
  cbv zeta. split; [|reflexivity].
  apply (hidden_entries_are_skipped "cls" "out"
           [(".git", Dir [("PingClient.py", File)]);
            ("z3", Dir [("readme.txt", File)])] []
           (start dead_on_launch 0)).
  reflexivity.
Defined.

(** ** Closing the stream *)

Section StreamProperties.

Context {table : ExecStatusTable}.

(** C5, as amended.  Whenever the classification of a submission returns an
    outcome, be it [OK] or a failure, the stream opened for the submission is
    closed exactly once, right after the classification, in the automatic,
    the manual and the retry pass alike. *)
Theorem stream_closed_once_when_classified
    class_path output_destination submission node t w st w1 :
  let file := output_file output_destination submission in
  run_individual_submission (Py.join class_path submission) node
    (mkStream file t) (emit (EvOpen file t) w) = (Returned st, w1) ->
  opened_and_closed_once file w (emit (EvClose file) w1)
  /\ (t = None ->
      forall failed,
        snd (auto_body class_path output_destination submission node failed w)
        = emit (EvClose file) w1)
  /\ (t = Some true ->
      forall class_submissions lab_num,
        Py.getitem class_submissions lab_num = Some (submission, node) ->
        manual_body class_path output_destination class_submissions lab_num w
        = (Returned tt, emit (EvClose file) w1))
  /\ (t = Some true ->
      forall tree_at retry_submissions selected_submission keyboard,
        Py.getitem retry_submissions selected_submission = Some submission ->
        tree_at (Py.join class_path submission) = Returned node ->
        snd (retry_body class_path tree_at output_destination
               retry_submissions selected_submission keyboard w)
        = emit (EvClose file) w1).
Proof.
  intros file Hrun. split; [|split; [|split]].
  - destruct (run_individual_submission_inside _ _ _ _ _ _ Hrun)
      as (evs & (T & _) & I).
    exists t, evs. split; [|exact I].
    cbn [emit trace] in *. rewrite T, <- !app_assoc. reflexivity.
  - intros -> failed. unfold auto_body, bind, StreamHandler_new.
    fold file. rewrite Hrun. reflexivity.
  - intros -> subs lab_num Hget.
    unfold manual_body, bind, StreamHandler_new, or_raise. rewrite Hget.
    cbn [ret fst snd]. fold file. rewrite Hrun. reflexivity.
  - intros -> tree_at l sel kb Hget Hsub.
    unfold retry_body, bind, StreamHandler_new, or_raise, lift.
    rewrite Hget. cbn [ret]. fold file. rewrite Hsub, Hrun. cbn [close].
    destruct (value st =? 0)%Z.
    + destruct (Py.remove submission l); reflexivity.
    + destruct kb as [|line kb]; [reflexivity|].
      destruct (String.eqb (Py.lower line) "r"); [|reflexivity].
      destruct (Py.remove submission l); reflexivity.
Qed.

End StreamProperties.

Lemma stream_closed_once_when_classified_witness :
  let w := start never_exits 0 in
  let file := output_file "out" "z3" in
  run_individual_submission (Py.join "cls" "z3") (Dir [("readme.txt", File)])
    (mkStream file (Some true)) (emit (EvOpen file (Some true)) w)
  = (Returned FILE_NOT_FOUND,
     emit (EvWriteMessage file "File not found" true)
          (emit (EvOpen file (Some true)) w))
  /\ opened_and_closed_once file w
       (emit (EvClose file)
          (emit (EvWriteMessage file "File not found" true)
             (emit (EvOpen file (Some true)) w))).
Proof.
  cbv zeta. split; [reflexivity|].
  apply (stream_closed_once_when_classified "cls" "out" "z3"
           (Dir [("readme.txt", File)]) (Some true) (start never_exits 0)
           FILE_NOT_FOUND).
  reflexivity.
Defined.

(** C5 as stated fails: when the classification raises, the stream that was
    opened for the submission is never closed.  In the automatic pass a
    regular file in the class folder makes [os.listdir] raise; in the manual
    and the retry pass the fault of the first poll does. *)
Lemma stream_left_open_when_classification_raises :
  let w := start ends_at_first_poll 0 in
  let auto := mark_submissions_auto "cls"
                (Dir [("notes.txt", File); ("z1", Dir [("PingClient.py", File)])])
                "out" [] ["n"] w in
  let manual := mark_submissions_manually "cls" sample_class "out" [1%Z] w in
  let retry := retry_marking "cls" (listed_below "cls" sample_class)
                 [("z1", "Execution failed")] "out" [0%Z] [] w in
  (fst auto = Raised NotADirectoryError
   /\ trace (snd auto) = [EvOpen "out/notes.txt_output.txt" None])
  /\ (fst manual = Raised ChildProcessError
      /\ occurrences is_open (trace (snd manual)) = 1
      /\ occurrences is_close (trace (snd manual)) = 0)
  /\ (fst retry = Raised ChildProcessError
      /\ occurrences is_open (trace (snd retry)) = 1
      /\ occurrences is_close (trace (snd retry)) = 0).
Proof. vm_compute. repeat split. Qed.

(** ** The retry loop *)

Lemma getitem_In {A} (l : list A) i x : Py.getitem l i = Some x -> In x l.
Proof.
  unfold Py.getitem.
  destruct ((0 <=? i) && (i <? Z.of_nat (List.length l)))%Z;
    [apply nth_error_In|].
  destruct ((- Z.of_nat (List.length l) <=? i) && (i <? 0))%Z;
    [apply nth_error_In|discriminate].
Qed.

(** On a list without repetitions [remove] takes the element off. *)
Lemma remove_spec s :
  forall l, NoDup l -> In s l ->
    exists l', Py.remove s l = Some l'
               /\ NoDup l'
               /\ forall x, In x l' <-> In x l /\ x <> s.
Proof.
  induction l as [|y l IH]; intros Hnd Hin; [destruct Hin|].
  inversion Hnd as [|? ? Hy Hl]; subst. cbn [Py.remove].
  destruct (String.eqb_spec y s) as [->|Hne].
  - exists l. split; [reflexivity|]. split; [exact Hl|].
    intros x. split.
    + intros Hx. split; [now right|]. intros ->. contradiction.
    + intros [[->|Hx] Hneq]; [contradiction|exact Hx].
  - destruct Hin as [->|Hin]; [contradiction|].
    destruct (IH Hl Hin) as (l' & -> & Hnd' & Hiff).
    exists (y :: l'). split; [reflexivity|]. split.
    + constructor; [|exact Hnd']. intros Hy'. apply Hiff in Hy' as [? _].
      contradiction.
    + intros x. cbn [In]. rewrite Hiff. split.
      * intros [->|[? ?]]; [split; [now left|congruence]|split; [now right|assumption]].
      * intros [[->|?] ?]; [now left|now right].
Qed.

Section RetryProperties.

Context {table : ExecStatusTable}.

(** One pass of the retry loop that returns. *)
Lemma retry_body_spec submission_path tree_at output_destination
    l sel kb w l' kb' round w' :
  NoDup l ->
  retry_body submission_path tree_at output_destination l sel kb w
  = (Returned (l', kb', round), w') ->
  In (selected round) l
  /\ NoDup l'
  /\ ((removes round
       /\ Py.remove (selected round) l = Some l'
       /\ forall x, In x l' <-> In x l /\ x <> selected round)
      \/ (keeps round /\ l' = l)).
Proof.
  intros Hnd. unfold retry_body, bind, or_raise, lift, StreamHandler_new.
  destruct (Py.getitem l sel) as [s|] eqn:Hget; [|discriminate].
  cbn [ret]. apply getitem_In in Hget.
  destruct (remove_spec s l Hnd Hget) as (lr & Hrem & Hndr & Hiff).
  destruct (tree_at (Py.join submission_path s)) as [node|e]; [|discriminate].
  destruct (run_individual_submission _ node _ _) as [[st|e] w1];
    [|discriminate].
  cbn [close]. destruct (value st =? 0)%Z eqn:Hv.
  - rewrite Hrem. intros [= <- <- <- <-]. cbn [selected].
    split; [exact Hget|]. split; [exact Hndr|]. left.
    split; [left; now apply value_is_zero|now split].
  - assert (Hst : st <> OK)
      by (intros HOK; apply value_is_zero in HOK; congruence).
    destruct kb as [|line kb]; [discriminate|].
    destruct (String.eqb_spec (Py.lower line) "r") as [Hr|Hr].
    + rewrite Hrem. intros [= <- <- <- <-]. cbn [selected].
      split; [exact Hget|]. split; [exact Hndr|]. left.
      split; [right; cbn; now rewrite Hr|now split].
    + intros [= <- <- <- <-]. cbn [selected].
      split; [exact Hget|]. split; [exact Hnd|]. right.
      split; [|reflexivity]. split; [exact Hst|]. cbn. congruence.
Qed.

Lemma removes_not_keeps round : removes round -> ~ keeps round.
Proof. intros [H|H] [H1 H2]; contradiction. Qed.



End RetryProperties.


(** * Further properties *)

(** ** [find_file]: what a result means *)

Lemma known_extension_has_language ex :
  Py.contains [".py"; ".c"; ".java"] ex = true ->
  exists lang, dict_get lang_map ex = Returned lang /\ In (ex, lang) lang_map.
Proof.
  unfold Py.contains. cbn [existsb]. rewrite !orb_true_iff, !String.eqb_eq.
  intros [->|[->|[->|H]]]; [..|discriminate]; eexists; (split; [reflexivity|]);
    cbn; auto.
Qed.

(** A first loop that falls through met no candidate. *)
Lemma first_loop_fallthrough search_folder file_name :
  forall current_files directories ds,
    first_loop search_folder file_name current_files directories
    = Fallthrough ds ->
    forall e, In e current_files -> is_candidate file_name e = false.
Proof.
  induction current_files as [|[d child] rest IH]; intros dirs ds H e He;
    [destruct He|].
  rewrite first_loop_cons in H. unfold is_candidate.
  destruct He as [<-|He]; cbn [fst].
  - destruct (String.eqb (stem d) file_name); [|reflexivity].
    destruct (Py.contains _ (extension d)); [discriminate|reflexivity].
  - destruct (String.eqb (stem d) file_name).
    + destruct (Py.contains _ (extension d)); [discriminate|].
      exact (IH _ _ H e He).
    + destruct (isdir child); exact (IH _ _ H e He).
Qed.

(** A first loop left by [return] hands back the first candidate it met. *)
Lemma first_loop_return search_folder file_name :
  forall current_files directories r,
    first_loop search_folder file_name current_files directories = Return_ r ->
    exists d child lang,
      find (is_candidate file_name) current_files = Some (d, child)
      /\ In (extension d, lang) lang_map
      /\ r = Returned (mkCodeFile search_folder (extension d) lang).
Proof.
  induction current_files as [|[d child] rest IH]; intros dirs r H;
    [discriminate|].
  rewrite first_loop_cons in H. cbn [find]. unfold is_candidate at 1.
  cbn [fst].
  destruct (String.eqb (stem d) file_name); cbn [andb].
  - destruct (Py.contains _ (extension d)) eqn:Hext.
    + destruct (known_extension_has_language _ Hext) as (lang & Hl & Hin).
      rewrite Hl in H. injection H as <-. exists d, child, lang. auto.
    + exact (IH _ _ H).
  - destruct (isdir child); exact (IH _ _ H).
Qed.

Lemma first_loop_finds search_folder file_name :
  forall current_files directories d child,
    find (is_candidate file_name) current_files = Some (d, child) ->
    exists lang,
      In (extension d, lang) lang_map
      /\ first_loop search_folder file_name current_files directories
         = Return_ (Returned (mkCodeFile search_folder (extension d) lang)).
Proof.
  induction current_files as [|[d0 child0] rest IH]; intros dirs d child H;
    [discriminate|].
  rewrite first_loop_cons. cbn [find] in H. unfold is_candidate at 1 in H.
  cbn [fst] in H.
  destruct (String.eqb (stem d0) file_name); cbn [andb] in H.
  - destruct (Py.contains _ (extension d0)) eqn:Hext.
    + injection H as <- <-.
      destruct (known_extension_has_language _ Hext) as (lang & Hl & Hin).
      rewrite Hl. exists lang. auto.
    + exact (IH _ _ _ H).
  - destruct (isdir child0); exact (IH _ _ _ H).
Qed.

(** X1.  A direct entry of the search folder that is a candidate wins over
    everything below: [find_file] returns the first candidate in listing
    order, with the search folder itself as [folder_path], and looks into no
    subdirectory.  The entry is not checked to be a regular file. *)
Theorem find_file_direct_candidate_first
    search_folder current_files file_name d child :
  find (is_candidate file_name) current_files = Some (d, child) ->
  exists lang,
    In (extension d, lang) lang_map
    /\ find_file search_folder (Dir current_files) file_name
       = Returned (Some (mkCodeFile search_folder (extension d) lang)).
Proof.
  intros H.
  destruct (first_loop_finds search_folder file_name _ [] _ _ H)
    as (lang & Hin & Hloop).
  exists lang. split; [exact Hin|]. now rewrite find_file_in_dir, Hloop.
Qed.

Lemma find_file_direct_candidate_first_witness :
  find (is_candidate "PingClient")
       [("sub", Dir [("PingClient.py", File)]); ("PingClient.java", Dir []);
        ("PingClient.py", File)]
  = Some ("PingClient.java", Dir [])
  /\ exists lang,
       In (extension "PingClient.java", lang) lang_map
       /\ find_file "root"
            (Dir [("sub", Dir [("PingClient.py", File)]);
                  ("PingClient.java", Dir []); ("PingClient.py", File)])
            "PingClient"
          = Returned (Some (mkCodeFile "root" (extension "PingClient.java") lang)).
Proof.
  split; [reflexivity|].
  apply (find_file_direct_candidate_first "root"
           [("sub", Dir [("PingClient.py", File)]); ("PingClient.java", Dir []);
            ("PingClient.py", File)] "PingClient" "PingClient.java" (Dir [])).
  reflexivity.
Defined.

(** The head of [directories] after a first loop that falls through. *)
Lemma first_loop_head search_folder file_name current_files directory sub ds :
  first_loop search_folder file_name current_files []
  = Fallthrough ((directory, sub) :: ds) ->
  exists d entries,
    In (d, sub) current_files
    /\ directory = Py.join search_folder d
    /\ sub = Dir entries.
Proof.
  intros H. pose proof (first_loop_fallthrough _ _ _ _ _ H) as Hno.
  rewrite (first_loop_no_candidate _ _ _ [] Hno) in H. cbn [app] in H.
  injection H as H.
  assert (Hin : In (directory, sub)
                   (map (collected_as search_folder)
                        (filter (is_collected file_name) current_files)))
    by (rewrite H; now left).
  apply in_map_iff in Hin as ([d c] & Heq & Hf).
  apply filter_In in Hf as (Hin & Hc). injection Heq as <- <-.
  unfold is_collected in Hc. cbn [fst snd] in Hc.
  apply andb_true_iff in Hc as (_ & Hdir).
  destruct c as [|entries]; [discriminate|]. exists d, entries. auto.
Qed.

(** X2.  Whatever [find_file] returns is there: the folder it names is the
    search folder or lies below it through directory entries, and holds an
    entry whose name splits into the target base name and the extension
    reported, one of the three known ones, with the language [lang_map]
    gives for it. *)
Theorem find_file_sound :
  forall node search_folder file_name code_file,
    find_file search_folder node file_name = Returned (Some code_file) ->
    exists entries d child,
      reaches search_folder node (folder_path code_file) (Dir entries)
      /\ In (d, child) entries
      /\ Py.splitext d = (file_name, ext code_file)
      /\ In (ext code_file, language code_file) lang_map.
Proof.
  intros node.
  induction node as [node IH] using (well_founded_induction
                                        (Wf_nat.well_founded_ltof _ node_size)).
  intros sf fn cf H. destruct node as [|es]; [simp find_file in H; discriminate|].
  rewrite find_file_in_dir in H.
  destruct (first_loop sf fn es []) as [[found|e]|[|[directory sub] ds]] eqn:E;
    try discriminate.
  - injection H as ->.
    destruct (first_loop_return _ _ _ _ _ E) as (d & child & lang & Hf & Hl & Hr).
    injection Hr as ->. apply find_some in Hf as (Hin & Hc).
    unfold is_candidate in Hc. cbn [fst] in Hc.
    apply andb_true_iff in Hc as (Hstem & _). apply String.eqb_eq in Hstem.
    exists es, d, child. cbn [folder_path ext language].
    split; [constructor|]. split; [exact Hin|]. split; [|exact Hl].
    unfold stem, extension in *. destruct (Py.splitext d). cbn in *. now subst.
  - destruct (first_loop_head _ _ _ _ _ _ E) as (d & entries & Hin & -> & ->).
    destruct (IH (Dir entries) (node_size_child _ _ _ Hin) _ _ _ H)
      as (es' & d' & child' & Hreach & ?).
    exists es', d', child'. split; [|assumption].
    exact (reaches_down _ _ _ _ _ _ Hin Hreach).
Qed.

Lemma find_file_sound_witness :
  find_file "root" (Dir mixed_entries) "PingClient"
  = Returned (Some (mkCodeFile "root/sub" ".java" "Java"))
  /\ exists entries d child,
       reaches "root" (Dir mixed_entries) "root/sub" (Dir entries)
       /\ In (d, child) entries
       /\ Py.splitext d = ("PingClient", ".java")
       /\ In (".java", "Java") lang_map.
Proof.
  split; [reflexivity|].
  apply (find_file_sound (Dir mixed_entries) "root" "PingClient"
           (mkCodeFile "root/sub" ".java" "Java")).
  reflexivity.
Defined.

(** ** [run_lab_2_code]: every course a classification can take *)

Lemma polled_world_client client w :
  exists evs,
    grows w (polled_world client (1 # 10) w) evs
    /\ Forall (client_event (pid client) (file_name (out_stream client))) evs
    /\ occurrences is_poll evs = 1.
Proof.
  exists (EvPoll (pid client) (1 # 10)
          :: map (EvWriteLine (file_name (out_stream client)))
                 (lines (next_poll w client))).
  split; [|split].
  - unfold grows, polled_world. cbn. auto.
  - constructor; [now left|]. apply Forall_forall. intros e He.
    apply in_map_iff in He as (l & <- & _). right. eauto.
  - change (EvPoll ?a ?b :: ?l) with ([EvPoll a b] ++ l).
    rewrite occurrences_app, occurrences_lines by reflexivity. reflexivity.
Qed.

(** The loop entered with [count <= 150]: it polls until a poll signals the
    end of the child or the counter passes 150, whichever comes first. *)
Lemma poll_loop_trace :
  forall n client count w,
    count + n = 150 ->
    exists r w' evs k,
      poll_loop client count w = (r, w')
      /\ Forall (client_event (pid client) (file_name (out_stream client))) evs
      /\ occurrences is_poll evs = S k
      /\ k <= n
      /\ (forall i, i < k ->
            outcome (child w (pid client) (polled client + i)) <> ChildEnded)
      /\ ((r = Returned TIMEOUT
           /\ k = n
           /\ outcome (child w (pid client) (polled client + k)) <> ChildEnded
           /\ grows w w' (evs ++ [EvKill (pid client)]))
          \/ (r = Raised ChildProcessError
              /\ outcome (child w (pid client) (polled client + k)) = ChildEnded
              /\ grows w w' evs)).
Proof.
  induction n as [|n IH]; intros c count w Hcount;
    rewrite poll_loop_step, get_output_eq;
    destruct (polled_world_client c w) as (e1 & G1 & P1 & N1).
  - assert (Hlt : (150 <? count + 1)%nat = true) by (apply Nat.ltb_lt; lia).
    rewrite Hlt.
    destruct (outcome (next_poll w c)) eqn:H0; unfold next_poll in H0.
    1, 2: eexists; eexists; exists e1, 0;
      (split; [reflexivity|]); (split; [exact P1|]); (split; [exact N1|]);
      (split; [lia|]); (split; [intros i Hi; lia|]); left;
      rewrite Nat.add_0_r, H0;
      (split; [reflexivity|]); (split; [reflexivity|]);
      (split; [discriminate|]);
      apply (grows_trans _ _ _ _ _ G1), grows_emit.
    eexists; eexists; exists e1, 0.
    split; [reflexivity|]. split; [exact P1|]. split; [exact N1|].
    split; [lia|]. split; [intros i Hi; lia|]. right.
    rewrite Nat.add_0_r, H0.
    split; [reflexivity|]. split; [reflexivity|exact G1].
  - assert (Hlt : (150 <? count + 1)%nat = false) by (apply Nat.ltb_ge; lia).
    rewrite Hlt. pose proof G1 as (T1 & C1 & S1).
    assert (Hnext : outcome (next_poll w c) <> ChildEnded ->
      forall alive,
      exists r w' evs k,
        poll_loop (mkProcess (pid c) (out_stream c) alive (S (polled c)))
                  (count + 1) (polled_world c (1 # 10) w) = (r, w')
        /\ Forall (client_event (pid c) (file_name (out_stream c))) evs
        /\ occurrences is_poll evs = S k
        /\ k <= S n
        /\ (forall i, i < k ->
              outcome (child w (pid c) (polled c + i)) <> ChildEnded)
        /\ ((r = Returned TIMEOUT
             /\ k = S n
             /\ outcome (child w (pid c) (polled c + k)) <> ChildEnded
             /\ grows w w' (evs ++ [EvKill (pid c)]))
            \/ (r = Raised ChildProcessError
                /\ outcome (child w (pid c) (polled c + k)) = ChildEnded
                /\ grows w w' evs))).
    { intros H0 alive.
      destruct (IH (mkProcess (pid c) (out_stream c) alive (S (polled c)))
                   (count + 1) (polled_world c (1 # 10) w))
        as (r & w' & evs & k & E & P & N & Hk & Hq & Hr); [lia|].
      cbn [pid polled out_stream] in *. rewrite C1 in Hq, Hr.
      exists r, w', (e1 ++ evs), (S k).
      split; [exact E|]. split; [apply Forall_app; now split|].
      split; [rewrite occurrences_app, N1, N; reflexivity|].
      split; [lia|]. split.
      - intros i Hi. destruct i as [|i].
        + rewrite Nat.add_0_r. exact H0.
        + replace (polled c + S i) with (S (polled c) + i) by lia.
          apply Hq. lia.
      - replace (polled c + S k) with (S (polled c) + k) by lia.
        destruct Hr as [(-> & -> & Hne & G)|(-> & He & G)].
        + left. split; [reflexivity|]. split; [reflexivity|].
          split; [exact Hne|]. rewrite <- app_assoc.
          exact (grows_trans _ _ _ _ _ G1 G).
        + right. split; [reflexivity|]. split; [exact He|].
          exact (grows_trans _ _ _ _ _ G1 G). }
    destruct (outcome (next_poll w c)) eqn:H0.
    1, 2: apply Hnext; discriminate.
    unfold next_poll in H0.
    eexists; eexists; exists e1, 0.
    split; [reflexivity|]. split; [exact P1|]. split; [exact N1|].
    split; [lia|]. split; [intros i Hi; lia|]. right.
    rewrite Nat.add_0_r, H0.
    split; [reflexivity|]. split; [reflexivity|exact G1].
Qed.

Lemma occurrences_client p pid file evs :
  (forall t, p (EvPoll pid t) = false) ->
  (forall l, p (EvWriteLine file l) = false) ->
  Forall (client_event pid file) evs ->
  occurrences p evs = 0.
Proof.
  intros Hp Hl H. apply occurrences_none.
  eapply Forall_impl; [|exact H]. intros e [->|(l & ->)]; auto.
Qed.

Lemma launches_spec code_lang :
  launches code_lang = true <-> code_lang = "Python" \/ code_lang = "Java".
Proof.
  unfold launches. now rewrite orb_true_iff, !String.eqb_eq.
Qed.

(** A classification of Python or Java code: the compile step if any, the
    launch, then the events of the client and, at the end, the kill if there
    is one.  Which course it takes is decided by the child's polls. *)
Lemma classification_courses code_file_dir code_lang out port_num w :
  launches code_lang = true ->
  exists r w' at_time evs tail polls,
    run_lab_2_code code_file_dir code_lang out port_num w = (r, w')
    /\ trace w'
       = trace w ++ compile_events code_file_dir code_lang
         ++ EvSpawn (spawned w) at_time (launch_command code_lang port_num)
                    code_file_dir
         :: evs ++ tail
    /\ Forall (client_event (spawned w) (file_name out)) evs
    /\ occurrences is_poll evs = polls
    /\ Course w r tail polls.
Proof.
  intros Hlang. apply launches_spec in Hlang.
  assert (Hstart : exists w0,
    run_lab_2_code code_file_dir code_lang out port_num w
    = watch_client (clock w) (fresh_client w out) w0
    /\ grows w w0 (compile_events code_file_dir code_lang
                   ++ [EvSpawn (spawned w) (clock w0)
                               (launch_command code_lang port_num)
                               code_file_dir])).
  { destruct Hlang as [-> | ->].
    - eexists. split; [reflexivity|]. unfold grows. cbn. auto.
    - eexists. split; [reflexivity|]. unfold grows. cbn.
      rewrite <- app_assoc. auto. }
  destruct Hstart as (w0 & -> & G0). pose proof G0 as (T0 & C0 & S0).
  unfold watch_client, bind. rewrite get_output_eq.
  destruct (polled_world_client (fresh_client w out) w0) as (e1 & G1 & P1 & N1).
  pose proof G1 as (T1 & C1 & _). cbn [fresh_client pid out_stream] in P1.
  assert (Hp0 : outcome (next_poll w0 (fresh_client w out)) = poll_outcome w 0)
    by (unfold next_poll, poll_outcome, fresh_client; cbn; now rewrite C0).
  rewrite Hp0.
  assert (Hshort : trace (polled_world (fresh_client w out) (1 # 10) w0)
                   = trace w ++ compile_events code_file_dir code_lang
                     ++ EvSpawn (spawned w) (clock w0)
                                (launch_command code_lang port_num)
                                code_file_dir
                     :: e1 ++ []).
  { rewrite T1, T0, app_nil_r, <- !app_assoc. reflexivity. }
  destruct (poll_outcome w 0) eqn:H0; cbn [is_alive negb].
  - destruct (poll_loop_trace 150 (mkProcess (spawned w) out true 1) 0
                (polled_world (fresh_client w out) (1 # 10) w0) eq_refl)
      as (r & w' & evs & k & E & P & N & Hk & Hq & Hr).
    cbn [pid polled out_stream] in Hq, Hr, P. rewrite C1, C0 in Hq, Hr.
    unfold try_except. cbn [fresh_client pid out_stream polled] in E |- *.
    rewrite E.
    destruct Hr as [(-> & -> & Hne & G)|(-> & He & G)].
    + exists (Returned TIMEOUT), w', (clock w0), (e1 ++ evs),
             [EvKill (spawned w)], 152.
      split; [reflexivity|]. split; [|split; [|split]].
      * destruct G as (T & _). rewrite T, T1, T0, <- !app_assoc. reflexivity.
      * apply Forall_app. now split.
      * rewrite occurrences_app, N1, N. reflexivity.
      * apply KilledAtCeiling; [exact H0|].
        intros i Hi. destruct (Nat.eq_dec i 151) as [->|Hi'].
        -- exact Hne.
        -- replace i with (1 + (i - 1)) by lia. apply Hq. lia.
    + cbn [Exn_eqb]. unfold time_time.
      exists (Returned (if Qltb (clock w' - clock w) 2
                        then UNEXPECTED_TERMINATION else OK)),
             w', (clock w0), (e1 ++ evs), [], (k + 2).
      split; [destruct (Qltb _ 2); reflexivity|]. split; [|split; [|split]].
      * destruct G as (T & _).
        rewrite T, T1, T0, app_nil_r, <- !app_assoc. reflexivity.
      * apply Forall_app. now split.
      * rewrite occurrences_app, N1, N. lia.
      * apply (EndedInLoop w k); try assumption.
        -- intros i Hi. replace i with (1 + (i - 1)) by lia. apply Hq. lia.
        -- destruct (Qltb _ 2); auto.
  - exists (Returned EXECUTION_FAILED),
           (polled_world (fresh_client w out) (1 # 10) w0), (clock w0), e1, [], 1.
    split; [reflexivity|]. split; [exact Hshort|]. split; [exact P1|].
    split; [exact N1|]. now constructor.
  - exists (Raised ChildProcessError),
           (polled_world (fresh_client w out) (1 # 10) w0), (clock w0), e1, [], 1.
    split; [reflexivity|]. split; [exact Hshort|]. split; [exact P1|].
    split; [exact N1|]. now constructor.
Qed.

(** For every other language nothing but the message happens. *)
Lemma no_launch code_file_dir code_lang out port_num w :
  launches code_lang = false ->
  run_lab_2_code code_file_dir code_lang out port_num w
  = (Returned OK,
     emit (EvWriteMessage (file_name out)
             "Code implemented in C, Please check manually!" false) w).
Proof.
  unfold launches. rewrite orb_false_iff. intros [Hpy Hjava].
  unfold run_lab_2_code, bind, time_time. now rewrite Hpy, Hjava.
Qed.

Lemma course_first_poll w r tail polls :
  Course w r tail polls ->
  match poll_outcome w 0 with
  | ChildEnded => r = Raised ChildProcessError
  | FoundDead => r = Returned EXECUTION_FAILED
  | StillRunning =>
      (r = Returned TIMEOUT
       /\ forall i, 1 <= i <= 151 -> poll_outcome w i <> ChildEnded)
      \/ ((r = Returned UNEXPECTED_TERMINATION \/ r = Returned OK)
          /\ exists k, k <= 150
                       /\ (forall i, 1 <= i <= k ->
                             poll_outcome w i <> ChildEnded)
                       /\ poll_outcome w (S k) = ChildEnded)
  end.
Proof.
  intros [H0|H0|H0 Hq|k st H0 Hk Hq Hend Hst]; rewrite H0; auto.
  right. split; [destruct Hst as [-> | ->]; auto|]. eauto.
Qed.

Lemma course_kill w r tail polls :
  Course w r tail polls ->
  1 <= polls <= 152
  /\ ((r = Returned TIMEOUT /\ tail = [EvKill (spawned w)])
      \/ (r <> Returned TIMEOUT /\ tail = [])).
Proof.
  intros [H0|H0|H0 Hq|k st H0 Hk Hq Hend Hst]; (split; [lia|]); auto;
    right; (split; [|reflexivity]); try discriminate.
  destruct Hst as [-> | ->]; discriminate.
Qed.

Lemma run_lab_2_code_raises_iff code_file_dir code_lang out port_num w e :
  fst (run_lab_2_code code_file_dir code_lang out port_num w) = Raised e
  <-> launches code_lang = true
      /\ e = ChildProcessError
      /\ poll_outcome w 0 = ChildEnded.
Proof.
  destruct (launches code_lang) eqn:Hlang.
  - destruct (classification_courses code_file_dir code_lang out port_num w
                Hlang) as (r & w' & at_time & evs & tail & polls & -> & _ & _
                           & _ & HC).
    apply course_first_poll in HC. cbn [fst]. split.
    + intros ->. destruct (poll_outcome w 0).
      * destruct HC as [(? & _)|([?|?] & _)]; discriminate.
      * discriminate.
      * injection HC as <-. auto.
    + intros (_ & -> & H0). now rewrite H0 in HC.
  - rewrite no_launch by exact Hlang. cbn [fst].
    split; [discriminate|]. intros (? & _). discriminate.
Qed.

(** X4.  An exception leaves [run_lab_2_code] in one case only: a child was
    launched (Python or Java) and its very first poll raised
    [ChildProcessError].  Every later [ChildProcessError] is caught, and no
    other exception is raised. *)
Theorem classifier_raises_only_at_first_poll
    code_file_dir code_lang out port_num w e :
  fst (run_lab_2_code code_file_dir code_lang out port_num w) = Raised e
  <-> launches code_lang = true
      /\ e = ChildProcessError
      /\ poll_outcome w 0 = ChildEnded.
Proof. apply run_lab_2_code_raises_iff. Qed.

Lemma classifier_raises_only_at_first_poll_witness :
  fst (run_lab_2_code "cls/z1" "Java" sink 12000 (start ends_at_first_poll 0))
  = Raised ChildProcessError.
Proof.
  apply (classifier_raises_only_at_first_poll "cls/z1" "Java" sink 12000
           (start ends_at_first_poll 0) ChildProcessError).
  repeat split.
Defined.

(** X5.  The child is killed exactly when the outcome is [TIMEOUT]: then the
    kill of the launched child is the last event of the classification and
    the only kill; with every other result, an escaping exception included,
    nothing is killed. *)
Theorem kill_exactly_on_timeout code_file_dir code_lang out port_num w r w' :
  run_lab_2_code code_file_dir code_lang out port_num w = (r, w') ->
  exists evs,
    trace w' = trace w ++ evs
    /\ ((r = Returned TIMEOUT
         /\ exists before,
              evs = before ++ [EvKill (spawned w)]
              /\ occurrences is_kill before = 0)
        \/ (r <> Returned TIMEOUT /\ occurrences is_kill evs = 0)).
Proof.
  destruct (launches code_lang) eqn:Hlang.
  - destruct (classification_courses code_file_dir code_lang out port_num w
                Hlang) as (r0 & w0 & at_time & evs & tail & polls & -> & T & P
                           & _ & HC).
    intros [= <- <-]. eexists. split; [exact T|].
    assert (Hcompile : occurrences is_kill
                         (compile_events code_file_dir code_lang) = 0)
      by (unfold compile_events; destruct (String.eqb code_lang "Java");
          reflexivity).
    assert (Hbefore : occurrences is_kill
              (compile_events code_file_dir code_lang
               ++ EvSpawn (spawned w) at_time
                          (launch_command code_lang port_num) code_file_dir
               :: evs) = 0).
    { change (EvSpawn ?a ?b ?c ?d :: evs) with ([EvSpawn a b c d] ++ evs).
      rewrite !occurrences_app, Hcompile.
      rewrite (occurrences_client is_kill _ _ evs
                 (fun _ => eq_refl) (fun _ => eq_refl) P).
      reflexivity. }
    destruct (course_kill _ _ _ _ HC) as (_ & [(-> & ->)|(Hne & ->)]).
    + left. split; [reflexivity|]. eexists. split; [|exact Hbefore].
      rewrite <- app_assoc. reflexivity.
    + right. split; [exact Hne|]. now rewrite app_nil_r.
  - rewrite no_launch by exact Hlang. intros [= <- <-].
    eexists. split; [reflexivity|]. right. split; [discriminate|reflexivity].
Qed.

Lemma kill_exactly_on_timeout_witness :
  let run := run_lab_2_code "cls/z1" "Python" sink 12000 (start never_exits 0) in
  fst run = Returned TIMEOUT
  /\ exists evs,
       trace (snd run) = trace (start never_exits 0) ++ evs
       /\ ((fst run = Returned TIMEOUT
            /\ exists before,
                 evs = before ++ [EvKill 0] /\ occurrences is_kill before = 0)
           \/ (fst run <> Returned TIMEOUT /\ occurrences is_kill evs = 0)).
Proof.
  cbv zeta. split; [vm_compute; reflexivity|].
  apply (kill_exactly_on_timeout "cls/z1" "Python" sink 12000
           (start never_exits 0)).
  apply surjective_pairing.
Defined.

(** X6.  A classification is bounded: it launches one child for Python and
    Java and none otherwise, runs the compiler once for Java only, and polls
    at least once and at most 152 times when a child was launched, never
    otherwise. *)
Theorem classification_is_bounded code_file_dir code_lang out port_num w r w' :
  run_lab_2_code code_file_dir code_lang out port_num w = (r, w') ->
  exists evs,
    trace w' = trace w ++ evs
    /\ occurrences is_spawn evs = (if launches code_lang then 1 else 0)
    /\ occurrences is_system evs
       = (if String.eqb code_lang "Java" then 1 else 0)
    /\ (if launches code_lang
        then 1 <= occurrences is_poll evs <= 152
        else occurrences is_poll evs = 0).
Proof.
  destruct (launches code_lang) eqn:Hlang.
  - destruct (classification_courses code_file_dir code_lang out port_num w
                Hlang) as (r0 & w0 & at_time & evs & tail & polls & -> & T & P
                           & N & HC).
    intros [= <- <-]. eexists. split; [exact T|].
    destruct (course_kill _ _ _ _ HC) as (Hpolls & Htail).
    assert (Htail' : forall p, p (EvKill (spawned w)) = false ->
                               occurrences p tail = 0)
      by (intros p Hp; destruct Htail as [(_ & ->)|(_ & ->)];
          [unfold occurrences; cbn; now rewrite Hp|reflexivity]).
    change (EvSpawn ?a ?b ?c ?d :: evs ++ tail)
      with ([EvSpawn a b c d] ++ evs ++ tail).
    rewrite !occurrences_app.
    rewrite (occurrences_client is_spawn _ _ evs
               (fun _ => eq_refl) (fun _ => eq_refl) P).
    rewrite (occurrences_client is_system _ _ evs
               (fun _ => eq_refl) (fun _ => eq_refl) P).
    rewrite !Htail' by reflexivity. rewrite N.
    unfold compile_events. destruct (String.eqb code_lang "Java"); cbn; lia.
  - rewrite no_launch by exact Hlang. intros [= <- <-].
    eexists. split; [reflexivity|].
    unfold launches in Hlang. apply orb_false_iff in Hlang as (_ & ->).
    repeat split.
Qed.

Lemma classification_is_bounded_witness :
  let run := run_lab_2_code "cls/z1" "Java" sink 12000 (start (ends_at 151) 0) in
  exists evs,
    trace (snd run) = trace (start (ends_at 151) 0) ++ evs
    /\ occurrences is_spawn evs = 1
    /\ occurrences is_system evs = 1
    /\ 1 <= occurrences is_poll evs <= 152.
Proof.
  apply (classification_is_bounded "cls/z1" "Java" sink 12000
           (start (ends_at 151) 0)
           (fst (run_lab_2_code "cls/z1" "Java" sink 12000
                   (start (ends_at 151) 0)))
           (snd (run_lab_2_code "cls/z1" "Java" sink 12000
                   (start (ends_at 151) 0)))).
  apply surjective_pairing.
Defined.

(** X7.  For Python and Java the polls decide the outcome.  It is
    [EXECUTION_FAILED] exactly when the first poll returns with the child
    found dead, [TIMEOUT] exactly when the child is alive at the first poll
    and none of the next 151 polls signals its end, and [OK] or
    [UNEXPECTED_TERMINATION] exactly when the child is alive at the first
    poll and one of the next 151 polls signals its end.  [FILE_NOT_FOUND] is
    never returned. *)
Theorem classification_table code_file_dir code_lang out port_num w :
  launches code_lang = true ->
  let r := fst (run_lab_2_code code_file_dir code_lang out port_num w) in
  (r = Returned EXECUTION_FAILED <-> poll_outcome w 0 = FoundDead)
  /\ (r = Returned TIMEOUT
      <-> poll_outcome w 0 = StillRunning
          /\ forall i, 1 <= i <= 151 -> poll_outcome w i <> ChildEnded)
  /\ (r = Returned OK \/ r = Returned UNEXPECTED_TERMINATION
      <-> poll_outcome w 0 = StillRunning
          /\ exists k, k <= 150
                       /\ (forall i, 1 <= i <= k ->
                             poll_outcome w i <> ChildEnded)
                       /\ poll_outcome w (S k) = ChildEnded)
  /\ r <> Returned FILE_NOT_FOUND.
Proof.
  intros Hlang r.
  destruct (classification_courses code_file_dir code_lang out port_num w Hlang)
    as (r0 & w' & at_time & evs & tail & polls & E & _ & _ & _ & HC).
  subst r. rewrite E. cbn [fst]. apply course_first_poll in HC.
  destruct (poll_outcome w 0) eqn:H0.
  - destruct HC as [(-> & Hq)|(Hr & k & Hk & Hq & Hend)].
    + split; [split; discriminate|]. split; [tauto|]. split; [|discriminate].
      split; [intros [?|?]; discriminate|].
      intros (_ & k & Hk & _ & Hend). exfalso. apply (Hq (S k)); [lia|exact Hend].
    + split; [split; [destruct Hr as [-> | ->]|]; discriminate|].
      split; [|split].
      * split; [destruct Hr as [-> | ->]; discriminate|].
        intros (_ & Hq'). exfalso. apply (Hq' (S k)); [lia|exact Hend].
      * split; [eauto|tauto].
      * destruct Hr as [-> | ->]; discriminate.
  - subst r0. split; [tauto|]. split; [split; [|intros (? & _)]; discriminate|].
    split; [|discriminate].
    split; [intros [?|?]|intros (? & _)]; discriminate.
  - subst r0. split; [split; discriminate|].
    split; [split; [|intros (? & _)]; discriminate|].
    split; [|discriminate].
    split; [intros [?|?]|intros (? & _)]; discriminate.
Qed.

Lemma classification_table_witness :
  poll_outcome (start dead_on_launch 0) 0 = FoundDead
  /\ fst (run_lab_2_code "cls/z1" "Python" sink 12000 (start dead_on_launch 0))
     = Returned EXECUTION_FAILED.
Proof.
  split; [reflexivity|].
  apply (proj1 (classification_table "cls/z1" "Python" sink 12000
                  (start dead_on_launch 0) eq_refl)).
  reflexivity.
Defined.

(** ** [run_individual_submission] *)

Lemma run_lab_2_code_never_file_not_found
    code_file_dir code_lang out port_num w :
  fst (run_lab_2_code code_file_dir code_lang out port_num w)
  <> Returned FILE_NOT_FOUND.
Proof.
  destruct (launches code_lang) eqn:Hlang.
  - destruct (classification_courses code_file_dir code_lang out port_num w
                Hlang) as (r & w' & at_time & evs & tail & polls & -> & _ & _
                           & _ & HC).
    cbn [fst]. destruct HC as [| | |k st _ _ _ _ [-> | ->]]; discriminate.
  - rewrite no_launch by exact Hlang. discriminate.
Qed.

Lemma run_lab_2_code_writes code_file_dir code_lang out port_num w r w' :
  run_lab_2_code code_file_dir code_lang out port_num w = (r, w') ->
  exists evs,
    trace w' = trace w ++ evs
    /\ forall e f, In e evs -> written_file e = Some f -> f = file_name out.
Proof.
  destruct (launches code_lang) eqn:Hlang.
  - destruct (classification_courses code_file_dir code_lang out port_num w
                Hlang) as (r0 & w0 & at_time & evs & tail & polls & -> & T & P
                           & _ & HC).
    intros [= <- <-]. eexists. split; [exact T|].
    intros e f Hin Hf. apply in_app_or in Hin as [Hin|[<-|Hin]].
    + unfold compile_events in Hin.
      destruct (String.eqb code_lang "Java"); [|destruct Hin].
      destruct Hin as [<-|[]]. discriminate.
    + discriminate.
    + apply in_app_or in Hin as [Hin|Hin].
      * rewrite Forall_forall in P.
        destruct (P _ Hin) as [->|(l & ->)]; [discriminate|].
        now injection Hf as <-.
      * destruct (course_kill _ _ _ _ HC) as (_ & [(_ & ->)|(_ & ->)]);
          [|destruct Hin].
        destruct Hin as [<-|[]]. discriminate.
  - rewrite no_launch by exact Hlang. intros [= <- <-].
    eexists. split; [reflexivity|].
    intros e f [<-|[]] Hf. now injection Hf as <-.
Qed.

(** X8.  Whatever a classification writes, captured lines and status
    messages alike, it writes to the stream it was given: no event of
    [run_individual_submission] writes to another file. *)
Theorem writes_go_to_own_stream submission_path node out w r w' :
  run_individual_submission submission_path node out w = (r, w') ->
  exists evs,
    trace w' = trace w ++ evs
    /\ forall e f, In e evs -> written_file e = Some f -> f = file_name out.
Proof.
  unfold run_individual_submission, bind, lift.
  destruct (find_file submission_path node "PingClient") as [[cf|]|e].
  - apply run_lab_2_code_writes.
  - intros [= <- <-]. eexists. split; [reflexivity|].
    intros e f [<-|[]] Hf. now injection Hf as <-.
  - intros [= <- <-]. exists []. split; [now rewrite app_nil_r|].
    intros e0 f [].
Qed.

Lemma writes_go_to_own_stream_witness :
  let w := start (fun _ n => mkPoll (1 # 10) ["ping 1"; "ping 2"]
                               (if Nat.eqb n 3 then ChildEnded
                                else StillRunning)) 0 in
  let run := run_individual_submission "cls/z1" (Dir [("PingClient.py", File)])
               sink w in
  exists evs,
    trace (snd run) = trace w ++ evs
    /\ forall e f, In e evs -> written_file e = Some f -> f = file_name sink.
Proof.
  cbv zeta.
  eapply (writes_go_to_own_stream "cls/z1" (Dir [("PingClient.py", File)])
            sink).
  apply surjective_pairing.
Defined.

(** X9.  [FILE_NOT_FOUND] is the outcome exactly when [find_file] finds
    nothing, and then the classification does one thing only: it writes
    "File not found" to the stream, without echo.  Nothing is launched. *)
Theorem file_not_found_exactly_when_nothing_found
    submission_path node out w w' :
  run_individual_submission submission_path node out w
  = (Returned FILE_NOT_FOUND, w')
  <-> find_file submission_path node "PingClient" = Returned None
      /\ w' = emit (EvWriteMessage (file_name out) "File not found" true) w.
Proof.
  unfold run_individual_submission, bind, lift.
  destruct (find_file submission_path node "PingClient") as [[cf|]|e].
  - split.
    + intros H.
      pose proof (run_lab_2_code_never_file_not_found (folder_path cf)
                    (language cf) out 12000%N w) as Hne.
      rewrite H in Hne. now contradiction Hne.
    + intros ([=] & _).
  - split; [intros [= <-]; auto|intros (_ & ->); reflexivity].
  - split; [discriminate|intros ([=] & _)].
Qed.

Lemma file_not_found_exactly_when_nothing_found_witness :
  run_individual_submission "cls/z3" (Dir [("readme.txt", File)]) sink
    (start never_exits 0)
  = (Returned FILE_NOT_FOUND,
     emit (EvWriteMessage (file_name sink) "File not found" true)
          (start never_exits 0)).
Proof.
  apply (file_not_found_exactly_when_nothing_found "cls/z3"
           (Dir [("readme.txt", File)]) sink (start never_exits 0)).
  split; reflexivity.
Defined.

(** ** The automatic pass as a whole *)

Lemma opened_files_app l1 l2 :
  opened_files (l1 ++ l2) = opened_files l1 ++ opened_files l2.
Proof. apply flat_map_app. Qed.

Lemma closed_files_app l1 l2 :
  closed_files (l1 ++ l2) = closed_files l1 ++ closed_files l2.
Proof. apply flat_map_app. Qed.

Lemma inside_stream_files evs :
  Forall inside_stream evs -> opened_files evs = [] /\ closed_files evs = [].
Proof.
  induction 1 as [|e evs [Ho Hc] _ [IHo IHc]]; [now split|].
  unfold opened_files, closed_files in *. cbn [flat_map].
  rewrite IHo, IHc. destruct e; try discriminate; now split.
Qed.

Lemma visible_names_cons s node rest :
  visible_names ((s, node) :: rest)
  = if Py.startswith s "." then visible_names rest
    else s :: visible_names rest.
Proof.
  unfold visible_names. cbn [filter]. unfold visible at 1. cbn [fst].
  destruct (Py.startswith s "."); reflexivity.
Qed.

Section AutomaticPass.

Context {table : ExecStatusTable}.

(** What one submission of the automatic pass opens and closes. *)
Lemma auto_body_files class_path output_destination submission node failed
    w r w' :
  auto_body class_path output_destination submission node failed w = (r, w') ->
  exists evs,
    trace w' = trace w ++ evs
    /\ opened_files evs = [output_file output_destination submission]
    /\ closed_files evs
       = match r with
         | Returned _ => [output_file output_destination submission]
         | Raised _ => []
         end.
Proof.
  intros Hrun.
  apply auto_body_shape in Hrun as (cr & w1 & evs & _ & (T & _) & I & Hcr).
  destruct (inside_stream_files _ I) as (Ho & Hc).
  cbn [emit trace] in T.
  destruct cr as [st|e]; destruct Hcr as [-> ->].
  - exists (EvOpen (output_file output_destination submission) None
            :: evs ++ [EvClose (output_file output_destination submission)]).
    split; [|split].
    + cbn [emit trace]. rewrite T, <- !app_assoc. reflexivity.
    + change (EvOpen ?f ?t :: ?l) with ([EvOpen f t] ++ l).
      rewrite !opened_files_app, Ho. reflexivity.
    + change (EvOpen ?f ?t :: ?l) with ([EvOpen f t] ++ l).
      rewrite !closed_files_app, Hc. reflexivity.
  - exists (EvOpen (output_file output_destination submission) None :: evs).
    split; [|split].
    + rewrite T, <- !app_assoc. reflexivity.
    + change (EvOpen ?f ?t :: ?l) with ([EvOpen f t] ++ l).
      rewrite !opened_files_app, Ho. reflexivity.
    + change (EvOpen ?f ?t :: ?l) with ([EvOpen f t] ++ l).
      rewrite !closed_files_app, Hc. reflexivity.
Qed.

(** X11.  The automatic pass handles the visible entries one after the
    other, in listing order.  When it returns, the stream of every visible
    entry has been opened and closed, each once and in that order.  When it
    raises, it stops at one entry: the streams of the entries before it were
    opened and closed, its own stream was opened and stays open, and the
    entries after it are never touched. *)
Theorem automatic_pass_in_listing_order
    class_path output_destination class_submissions failed w r w' :
  auto_for class_path output_destination class_submissions failed w = (r, w')
  ->
  exists evs,
    trace w' = trace w ++ evs
    /\ match r with
       | Returned _ =>
           opened_files evs
           = map (output_file output_destination)
                 (visible_names class_submissions)
           /\ closed_files evs = opened_files evs
       | Raised _ =>
           exists done s rest,
             visible_names class_submissions = done ++ s :: rest
             /\ closed_files evs = map (output_file output_destination) done
             /\ opened_files evs
                = map (output_file output_destination) (done ++ [s])
       end.
Proof.
  revert failed w r w'.
  induction class_submissions as [|[s node] rest IH]; intros failed w r w'.
  - intros [= <- <-]. exists []. split; [now rewrite app_nil_r|]. now split.
  - cbn [auto_for]. rewrite visible_names_cons.
    destruct (Py.startswith s ".") eqn:Hdot; cbn [negb]; [apply IH|].
    unfold bind. destruct (auto_body _ _ s node failed w) as [rb w1] eqn:Eb.
    apply auto_body_files in Eb as (e1 & T1 & O1 & C1).
    destruct rb as [failed1|e].
    + intros Hrest. apply IH in Hrest as (e2 & T2 & Hr).
      exists (e1 ++ e2). split; [rewrite T2, T1, app_assoc; reflexivity|].
      rewrite opened_files_app, closed_files_app, O1, C1.
      destruct r as [failed'|e].
      * destruct Hr as (-> & ->). now split.
      * destruct Hr as (done & s' & rest' & Hv & -> & ->).
        exists (s :: done), s', rest'. cbn [map app].
        rewrite Hv. now repeat split.
    + intros [= <- <-]. exists e1. split; [exact T1|].
      exists [], s, (visible_names rest). rewrite O1, C1. now repeat split.
Qed.

(** The ledger of the pass: keys stay distinct, and what the pass writes
    into it is the description of a code other than 0. *)
Lemma setitem_pairs k v d k' v' :
  In (k', v') (Py.setitem k v d) -> (k' = k /\ v' = v) \/ In (k', v') d.
Proof.
  induction d as [|[k0 v0] d IH]; cbn.
  - intros [[= <- <-]|[]]. auto.
  - destruct (String.eqb k0 k); cbn.
    + intros [[= <- <-]|H]; auto.
    + intros [H|H]; [auto|]. destruct (IH H); auto.
Qed.

Lemma setitem_nodup k v d :
  NoDup (Py.keys d) -> NoDup (Py.keys (Py.setitem k v d)).
Proof.
  unfold Py.keys. induction d as [|[k0 v0] d IH]; cbn.
  - intros _. repeat constructor. intros [].
  - intros Hnd. inversion Hnd as [|? ? Hk0 Hd]; subst.
    destruct (String.eqb_spec k0 k) as [->|Hne]; cbn.
    + now constructor.
    + constructor; [|now apply IH].
      intros Hin. apply (keys_setitem k v d k0) in Hin as [?|?]; auto.
Qed.

(** X12.  The ledger the automatic pass builds is fit for the retry loop:
    its keys are distinct, and every entry the pass wrote is a visible
    submission of the listing together with the description of an outcome
    other than [OK]. *)
Theorem automatic_ledger_is_well_formed
    class_path output_destination class_submissions failed w failed' w' :
  NoDup (Py.keys failed) ->
  auto_for class_path output_destination class_submissions failed w
  = (Returned failed', w') ->
  NoDup (Py.keys failed')
  /\ forall k v, In (k, v) failed' ->
       In (k, v) failed
       \/ (In k (visible_names class_submissions)
           /\ exists st, st <> OK /\ v = get_description (value st)).
Proof.
  revert failed w failed' w'.
  induction class_submissions as [|[s node] rest IH]; intros failed w failed' w'
    Hnd.
  - intros [= <- <-]. split; [exact Hnd|]. auto.
  - cbn [auto_for]. rewrite visible_names_cons.
    destruct (Py.startswith s ".") eqn:Hdot; cbn [negb]; [now apply IH|].
    unfold bind. destruct (auto_body _ _ s node failed w) as [rb w1] eqn:Eb.
    apply auto_body_shape in Eb as (cr & w2 & evs & _ & _ & _ & Hcr).
    destruct rb as [failed1|e]; [|discriminate].
    destruct cr as [st|e]; destruct Hcr as [_ [= ->]].
    intros Hrest.
    assert (Hnd1 : NoDup (Py.keys
                            (if negb (value st =? 0)%Z
                             then Py.setitem s (get_description (value st))
                                             failed
                             else failed)))
      by (destruct (negb _); [now apply setitem_nodup|exact Hnd]).
    destruct (IH _ _ _ _ Hnd1 Hrest) as (Hnd' & Hall).
    split; [exact Hnd'|]. intros k v Hin.
    destruct (Hall k v Hin) as [Hold|(Hk & Hst)].
    + destruct (value st =? 0)%Z eqn:Hv; cbn [negb] in Hold; [now left|].
      apply setitem_pairs in Hold as [(-> & ->)|?]; [|now left].
      right. split; [now left|]. exists st. split; [|reflexivity].
      intros ->. rewrite value_OK in Hv. discriminate.
    + right. split; [now right|exact Hst].
Qed.

(** X13.  The question after the pass accepts exactly [n] and [y]: every
    other line, [N] and [Y] included, is passed over and the question is
    asked again.  On [n] the function returns and nothing else happens; on
    [y] the retry loop runs with the lines that follow; when the input ends
    before either, [EOFError] is raised. *)
Theorem only_n_and_y_answer_the_question
    class_path class_node output_destination failed picks others keyboard :
  Forall undecided others ->
  ask_retry class_path class_node output_destination failed picks
            (others ++ "n" :: keyboard) = ret tt
  /\ ask_retry class_path class_node output_destination failed picks
               (others ++ "y" :: keyboard)
     = retry_marking class_path (listed_below class_path class_node) failed
                     output_destination picks keyboard
  /\ ask_retry class_path class_node output_destination failed picks others
     = raise EOFError.
Proof.
  induction 1 as [|line others [Hn Hy] _ (IHn & IHy & IHe)]; [now repeat split|].
  cbn [app ask_retry].
  apply String.eqb_neq in Hn, Hy. rewrite Hn, Hy. now repeat split.
Qed.

End AutomaticPass.

Lemma automatic_pass_in_listing_order_witness :
  let entries := [(".git", Dir []); ("z3", Dir []); ("notes.txt", File);
                  ("z1", Dir [("PingClient.py", File)])] in
  let run := auto_for "cls" "out" entries [] (start never_exits 0) in
  exists evs,
    trace (snd run) = trace (start never_exits 0) ++ evs
    /\ exists done s rest,
         visible_names entries = done ++ s :: rest
         /\ closed_files evs = map (output_file "out") done
         /\ opened_files evs = map (output_file "out") (done ++ [s]).
Proof.
  cbv zeta.
  apply (automatic_pass_in_listing_order "cls" "out"
           [(".git", Dir []); ("z3", Dir []); ("notes.txt", File);
            ("z1", Dir [("PingClient.py", File)])] [] (start never_exits 0)
           (Raised NotADirectoryError)).
  vm_compute. reflexivity.
Defined.

Lemma automatic_ledger_is_well_formed_witness :
  let run := auto_for "cls" "out"
               [("z1", Dir [("PingClient.py", File)]); ("z3", Dir [])] []
               (start dead_on_launch 0) in
  NoDup (Py.keys [])
  /\ fst run = Returned [("z1", "Execution failed"); ("z3", "File not found")]
  /\ NoDup (Py.keys [("z1", "Execution failed"); ("z3", "File not found")]).
Proof.
  cbv zeta. split; [constructor|]. split; [vm_compute; reflexivity|].
  apply (automatic_ledger_is_well_formed "cls" "out"
           [("z1", Dir [("PingClient.py", File)]); ("z3", Dir [])] []
           (start dead_on_launch 0)
           [("z1", "Execution failed"); ("z3", "File not found")]
           (snd (auto_for "cls" "out"
                   [("z1", Dir [("PingClient.py", File)]); ("z3", Dir [])] []
                   (start dead_on_launch 0)))).
  - constructor.
  - vm_compute. reflexivity.
Defined.

Lemma only_n_and_y_answer_the_question_witness :
  Forall undecided ["N"; "yes"; ""]
  /\ ask_retry "cls" sample_class "out" [("z1", "Execution failed")] []
               (["N"; "yes"; ""] ++ "n" :: ["y"])
     = ret tt.
Proof.
  assert (H : Forall undecided ["N"; "yes"; ""])
    by (repeat constructor; discriminate).
  split; [exact H|].
  apply (only_n_and_y_answer_the_question "cls" sample_class "out"
           [("z1", "Execution failed")] [] ["N"; "yes"; ""] ["y"] H).
Defined.

(** ** The retry loop and the manual loop *)

Lemma contains_spec l x : Py.contains l x = true <-> In x l.
Proof.
  unfold Py.contains. rewrite existsb_exists. split.
  - intros (y & Hy & Heq). apply String.eqb_eq in Heq. now subst.
  - intros H. exists x. split; [exact H|apply String.eqb_refl].
Qed.

Lemma filter_contains_self l : filter (Py.contains l) l = l.
Proof.
  apply forallb_filter_id, forallb_forall. intros x. apply contains_spec.
Qed.

Lemma filter_within {A} (f g : A -> bool) l :
  (forall x, In x l -> f x = true -> g x = true) ->
  filter f (filter g l) = filter f l.
Proof.
  induction l as [|a l IH]; intros H; [reflexivity|]. cbn [filter].
  assert (IH' := IH (fun x Hx => H x (or_intror Hx))).
  destruct (g a) eqn:Hg; cbn [filter].
  - now rewrite IH'.
  - destruct (f a) eqn:Hf; [|exact IH'].
    rewrite (H a (or_introl eq_refl) Hf) in Hg. discriminate.
Qed.

(** On a list without repetitions [remove] filters the element out. *)
Lemma remove_filter s :
  forall l l', NoDup l -> Py.remove s l = Some l' ->
    l' = filter (fun x => negb (String.eqb x s)) l.
Proof.
  induction l as [|y l IH]; intros l' Hnd; [discriminate|].
  inversion Hnd as [|? ? Hy Hl]; subst. cbn [Py.remove filter].
  destruct (String.eqb_spec y s) as [->|Hne]; cbn [negb].
  - intros [= <-]. symmetry. apply forallb_filter_id, forallb_forall.
    intros x Hx. apply negb_true_iff, String.eqb_neq. intros ->. contradiction.
  - destruct (Py.remove s l) as [l0|]; [|discriminate].
    intros [= <-]. f_equal. now apply IH.
Qed.

Section RetryOrder.

Context {table : ExecStatusTable}.

(** X14.  The retry loop keeps the list in order and never runs a
    submission again once a pass took it off: the list it stops on is the
    initial list with the removed submissions left out, every pass selects a
    submission of the initial list, and no pass after a removing pass
    selects the submission removed. *)
Theorem retry_keeps_order_and_never_reruns
    submission_path tree_at output_destination :
  forall picks kb l w run w',
    NoDup l ->
    retry_loop submission_path tree_at output_destination picks kb l w
    = (run, w') ->
    ledger run = filter (Py.contains (ledger run)) l
    /\ (forall round, In round (rounds run) -> In (selected round) l)
    /\ (forall before round after,
          rounds run = before ++ round :: after ->
          removes round ->
          forall later, In later after -> selected later <> selected round).
Proof.
  assert (Hnil : forall l : list string, [] = filter (Py.contains []) l)
    by (induction l; auto).
  assert (Hstop : forall (l : list string) (r : list Round),
             r = [] ->
             l = filter (Py.contains l) l
             /\ (forall round, In round r -> In (selected round) l)
             /\ (forall before round after,
                   r = before ++ round :: after ->
                   removes round ->
                   forall later, In later after ->
                     selected later <> selected round)).
  { intros l r ->. split; [symmetry; apply filter_contains_self|].
    split; [intros ? []|]. intros [|? ?] ? ? [=]. }
  induction picks as [|sel picks IH]; intros kb l w run w' Hnd Hloop;
    destruct l as [|s0 l0]; cbn [retry_loop] in Hloop.
  - injection Hloop as <- <-. cbn [ledger rounds]. split; [reflexivity|].
    split; [intros ? []|]. intros [|? ?] ? ? [=].
  - injection Hloop as <- <-. now apply Hstop.
  - injection Hloop as <- <-. cbn [ledger rounds]. split; [reflexivity|].
    split; [intros ? []|]. intros [|? ?] ? ? [=].
  - destruct (retry_body _ _ _ (s0 :: l0) sel kb w)
      as [[[[l' kb'] round]|e] w1] eqn:Hbody;
      [|injection Hloop as <- <-; now apply Hstop].
    destruct (retry_loop _ _ _ picks kb' l' w1) as [run' w2] eqn:Hrest.
    injection Hloop as <- <-. cbn [ledger rounds].
    destruct (retry_body_spec _ _ _ _ _ _ _ _ _ _ _ Hnd Hbody)
      as (Hin & Hnd' & Hcase).
    destruct (IH _ _ _ _ _ Hnd' Hrest) as (Hord & Hsel & Hlater).
    assert (Hsub : forall x, In x l' -> In x (s0 :: l0))
      by (destruct Hcase as [(_ & _ & Hiff)|(_ & ->)];
          [intros x Hx; now apply Hiff in Hx|auto]).
    split; [|split].
    + destruct Hcase as [(_ & Hrem & Hiff)|(_ & ->)]; [|exact Hord].
      rewrite Hord at 1. rewrite (remove_filter _ _ _ Hnd Hrem).
      apply filter_within. intros x _ Hx.
      apply contains_spec in Hx. rewrite Hord in Hx.
      apply filter_In in Hx as (Hx & _). apply Hiff in Hx as (_ & Hne).
      now apply negb_true_iff, String.eqb_neq.
    + intros rd [<-|Hrd]; [exact Hin|]. apply Hsub, Hsel, Hrd.
    + intros before rd after Heq Hrm later Hlat.
      destruct before as [|b before]; cbn [app] in Heq; injection Heq as <- Heq.
      * subst after. apply Hsel in Hlat.
        destruct Hcase as [(_ & _ & Hiff)|(Hkeep & _)].
        -- apply Hiff in Hlat as (_ & Hne). exact Hne.
        -- destruct (removes_not_keeps _ Hrm Hkeep).
      * exact (Hlater _ _ _ Heq Hrm later Hlat).
Qed.

(** X15.  The selection is used as an index without a check.  An index
    outside the list raises [IndexError] before any stream is opened: the
    retry loop ends at once with its list unchanged, and so does the manual
    loop. *)
Theorem out_of_range_selection_raises
    submission_path tree_at output_destination
    (retry_submissions : list string) (class_submissions : list (string * Node))
    sel picks kb w :
  retry_submissions <> [] ->
  out_of_range retry_submissions sel ->
  out_of_range class_submissions sel ->
  retry_loop submission_path tree_at output_destination (sel :: picks) kb
             retry_submissions w
  = (mkRetryRun (Raised IndexError) retry_submissions [], w)
  /\ manual_loop submission_path output_destination class_submissions
                 (sel :: picks) w
     = (Raised IndexError, w).
Proof.
  assert (Hget : forall A (l : list A), out_of_range l sel ->
                                        Py.getitem l sel = None).
  { intros A l [H|H]; unfold Py.getitem.
    - replace ((0 <=? sel) && (sel <? Z.of_nat (List.length l)))%Z with false
        by (symmetry; apply andb_false_iff; left; apply Z.leb_gt; lia).
      replace ((- Z.of_nat (List.length l) <=? sel) && (sel <? 0))%Z with false
        by (symmetry; apply andb_false_iff; left; apply Z.leb_gt; lia).
      reflexivity.
    - replace ((0 <=? sel) && (sel <? Z.of_nat (List.length l)))%Z with false
        by (symmetry; apply andb_false_iff; right; apply Z.ltb_ge; lia).
      replace ((- Z.of_nat (List.length l) <=? sel) && (sel <? 0))%Z with false
        by (symmetry; apply andb_false_iff; right; apply Z.ltb_ge; lia).
      reflexivity. }
  intros Hne Hr Hm. split.
  - destruct retry_submissions as [|s0 l0]; [contradiction|].
    cbn [retry_loop]. unfold retry_body, bind, or_raise.
    now rewrite (Hget _ _ Hr).
  - cbn [manual_loop]. unfold manual_body, bind, or_raise.
    now rewrite (Hget _ _ Hm).
Qed.

(** X16.  The manual loop has no way out but an exception: for every
    sequence of selections [mark_submissions_manually] ends by raising, be
    it the end of the operator's input, a bad index, or a fault of a
    classification. *)
Theorem manual_marking_only_ends_by_exception
    class_path class_node output_destination picks w :
  exists e,
    fst (mark_submissions_manually class_path class_node output_destination
           picks w) = Raised e.
Proof.
  unfold mark_submissions_manually, bind, lift.
  destruct (listdir class_node) as [subs|e]; [|now exists e].
  revert w. induction picks as [|lab_num picks IH]; intros w.
  - now exists EOFError.
  - cbn [manual_loop]. unfold bind.
    destruct (manual_body _ _ subs lab_num w) as [[[]|e] w1].
    + apply IH.
    + now exists e.
Qed.

End RetryOrder.

Lemma retry_keeps_order_and_never_reruns_witness :
  let loop := retry_loop "cls" (listed_below "cls" sample_class) "out" [0%Z; 0%Z; 1%Z] ["c"; "R"]
                ["z1"; "z3"; "z2"] (start dead_on_launch 0) in
  NoDup ["z1"; "z3"; "z2"]
  /\ ledger (fst loop) = filter (Py.contains (ledger (fst loop)))
                                ["z1"; "z3"; "z2"].
Proof.
  cbv zeta.
  assert (Hnd : NoDup ["z1"; "z3"; "z2"]).
  { repeat constructor; cbn; intros H;
      repeat (destruct H as [H|H]; [discriminate|]); exact H. }
  split; [exact Hnd|].
  apply (retry_keeps_order_and_never_reruns "cls" (listed_below "cls" sample_class) "out"
           [0%Z; 0%Z; 1%Z] ["c"; "R"] ["z1"; "z3"; "z2"]
           (start dead_on_launch 0)
           (fst (retry_loop "cls" (listed_below "cls" sample_class) "out" [0%Z; 0%Z; 1%Z]
                   ["c"; "R"] ["z1"; "z3"; "z2"] (start dead_on_launch 0)))
           (snd (retry_loop "cls" (listed_below "cls" sample_class) "out" [0%Z; 0%Z; 1%Z]
                   ["c"; "R"] ["z1"; "z3"; "z2"] (start dead_on_launch 0)))
           Hnd).
  apply surjective_pairing.
Defined.

Lemma out_of_range_selection_raises_witness :
  ["z1"; "z3"] <> []
  /\ out_of_range ["z1"; "z3"] 2
  /\ out_of_range [("z1", Dir []); ("z3", Dir [])] 2
  /\ retry_loop "cls" (listed_below "cls" sample_class) "out" [2%Z; 0%Z] [] ["z1"; "z3"]
                (start never_exits 0)
     = (mkRetryRun (Raised IndexError) ["z1"; "z3"] [], start never_exits 0).
Proof.
  assert (H1 : ["z1"; "z3"] <> []) by discriminate.
  assert (H2 : out_of_range ["z1"; "z3"] 2) by (right; cbn; lia).
  assert (H3 : out_of_range [("z1", Dir []); ("z3", Dir [])] 2)
    by (right; cbn; lia).
  split; [exact H1|]. split; [exact H2|]. split; [exact H3|].
  apply (out_of_range_selection_raises "cls" (listed_below "cls" sample_class) "out"
           ["z1"; "z3"] [("z1", Dir []); ("z3", Dir [])] 2 [0%Z] []
           (start never_exits 0) H1 H2 H3).
Defined.

(** ** [remote.py] *)

Lemma Prepared_app a b : Prepared a -> Prepared b -> Prepared (a ++ b).
Proof. induction 1; cbn; auto using Prepared. Qed.

Lemma download_submissions_prepared ssh_lab_path save_path class_name l :
  Prepared (Remote.download_submissions ssh_lab_path save_path class_name l).
Proof. induction l; cbn; auto using Prepared. Qed.

Lemma Prepared_adjacent acts :
  Prepared acts ->
  forall before r l after,
    acts = before ++ Remote.DownloadFolder r l :: after ->
    exists before', before = before' ++ [Remote.Makedirs l].
Proof.
  induction 1 as [|c acts _ IH|r0 l0 acts _ IH]; intros before r l after Heq.
  - destruct before; discriminate.
  - destruct before as [|b before]; [discriminate|].
    injection Heq as <- Heq. destruct (IH _ _ _ _ Heq) as (b' & ->).
    now exists (Remote.Execute c :: b').
  - destruct before as [|b before]; [discriminate|].
    injection Heq as <- Heq.
    destruct before as [|b2 before].
    + injection Heq as <- <- <-. now exists [].
    + injection Heq as <- Heq. destruct (IH _ _ _ _ Heq) as (b' & ->).
      now exists (Remote.Makedirs l0 :: Remote.DownloadFolder r0 l0 :: b').
Qed.

(** X17.  Both download functions make the local directory right before
    they fetch into it: in their actions every folder transfer is
    immediately preceded by [os.makedirs] of its local directory. *)
Theorem every_download_into_a_fresh_made_directory
    execute term lab_name class_names save_path remote_paths local_paths :
  forall acts,
    acts = Remote.download_labs_all_classes execute term lab_name class_names
             save_path
    \/ acts = Remote.download_selected remote_paths local_paths ->
    forall before r l after,
      acts = before ++ Remote.DownloadFolder r l :: after ->
      exists before', before = before' ++ [Remote.Makedirs l].
Proof.
  intros acts Hacts. apply Prepared_adjacent. destruct Hacts as [-> | ->].
  - induction class_names as [|c rest IH]; cbn; [constructor|].
    constructor. apply Prepared_app; [apply download_submissions_prepared|].
    exact IH.
  - revert local_paths.
    induction remote_paths as [|r rest IH]; intros [|l ls]; cbn;
      auto using Prepared.
Qed.

Lemma every_download_into_a_fresh_made_directory_witness :
  exists before',
    [Remote.Makedirs "a"; Remote.DownloadFolder "r1" "a"; Remote.Makedirs "b"]
    = before' ++ [Remote.Makedirs "b"].
Proof.
  apply (every_download_into_a_fresh_made_directory
           (fun _ => []) "" "" [] "" ["r1"; "r2"; "r3"] ["a"; "b"]
           (Remote.download_selected ["r1"; "r2"; "r3"] ["a"; "b"])
           (or_intror eq_refl)
           [Remote.Makedirs "a"; Remote.DownloadFolder "r1" "a";
            Remote.Makedirs "b"] "r2" "b" []).
  reflexivity.
Defined.

(** X18.  [download_selected] pairs the two lists position by position and
    stops at the end of the shorter one: the transfers are the pairs of
    [zip], as many as the shorter list has entries, and the surplus entries
    of the longer list are dropped without an error. *)
Theorem download_selected_stops_at_the_shorter_list remote_paths local_paths :
  folder_downloads (Remote.download_selected remote_paths local_paths)
  = combine remote_paths local_paths
  /\ List.length
       (folder_downloads (Remote.download_selected remote_paths local_paths))
     = Nat.min (List.length remote_paths) (List.length local_paths)
  /\ Remote.download_selected remote_paths local_paths
     = Remote.download_selected
         (firstn (List.length local_paths) remote_paths)
         (firstn (List.length remote_paths) local_paths).
Proof.
  assert (H : folder_downloads
                (Remote.download_selected remote_paths local_paths)
              = combine remote_paths local_paths).
  { revert local_paths.
    induction remote_paths as [|r rest IH]; intros [|l ls]; cbn;
      try reflexivity.
    f_equal. apply IH. }
  split; [exact H|]. split; [rewrite H; apply length_combine|].
  clear H. revert local_paths.
  induction remote_paths as [|r rest IH]; intros [|l ls]; cbn; try reflexivity.
  do 2 f_equal. apply IH.
Qed.

Lemma folder_downloads_app a b :
  folder_downloads (a ++ b) = folder_downloads a ++ folder_downloads b.
Proof. apply flat_map_app. Qed.

Lemma commands_run_app a b : commands_run (a ++ b) = commands_run a ++ commands_run b.
Proof. apply flat_map_app. Qed.

Lemma download_submissions_downloads ssh_lab_path save_path class_name l :
  folder_downloads
    (Remote.download_submissions ssh_lab_path save_path class_name l)
  = map (fun s => (Py.join ssh_lab_path s,
                   Py.join (Py.join save_path class_name) s)) l
  /\ commands_run
       (Remote.download_submissions ssh_lab_path save_path class_name l) = [].
Proof.
  induction l as [|s l (IH1 & IH2)]; [now split|]. cbn.
  fold (folder_downloads
          (Remote.download_submissions ssh_lab_path save_path class_name l)).
  fold (commands_run
          (Remote.download_submissions ssh_lab_path save_path class_name l)).
  now rewrite IH1, IH2.
Qed.

Lemma string_append_assoc a b c :
  (a ++ (b ++ c) = (a ++ b) ++ c)%string.
Proof. induction a as [|x a IH]; cbn; [reflexivity|now rewrite IH]. Qed.

Lemma endswith_slash a : Py.endswith_char (a ++ "/") "/" = true.
Proof.
  induction a as [|x a IH]; [reflexivity|]. cbn [append Py.endswith_char].
  destruct (a ++ "/")%string eqn:E; [destruct a; discriminate|exact IH].
Qed.

(** X19.  [download_labs_all_classes] lists every class once, in the order
    given, and fetches exactly the names listed: one transfer per name, from
    the name joined to the class path into the name joined to
    [save_path/class].  A name that does not start with a slash is fetched
    from below the class path. *)
Theorem download_labs_all_classes_fetches_what_is_listed
    execute term lab_name class_names save_path :
  let acts := Remote.download_labs_all_classes execute term lab_name
                class_names save_path in
  let path := Remote.ssh_lab_path term lab_name in
  commands_run acts = map (fun c => ("ls " ++ path c)%string) class_names
  /\ folder_downloads acts
     = flat_map (fun c =>
                   map (fun s => (Py.join (path c) s,
                                  Py.join (Py.join save_path c) s))
                       (execute ("ls " ++ path c)%string))
                class_names
  /\ forall c s, Py.startswith s "/" = false ->
                 Py.join (path c) s = (path c ++ s)%string.
Proof.
  cbv zeta. split; [|split].
  - induction class_names as [|c rest IH]; [reflexivity|].
    cbn [Remote.download_labs_all_classes map].
    change (Remote.Execute ?x :: ?l) with ([Remote.Execute x] ++ l).
    rewrite !commands_run_app, IH.
    now rewrite (proj2 (download_submissions_downloads _ _ _ _)).
  - induction class_names as [|c rest IH]; [reflexivity|].
    cbn [Remote.download_labs_all_classes flat_map].
    change (Remote.Execute ?x :: ?l) with ([Remote.Execute x] ++ l).
    rewrite !folder_downloads_app, IH.
    now rewrite (proj1 (download_submissions_downloads _ _ _ _)).
  - intros c s Hs. unfold Py.join, Remote.ssh_lab_path. rewrite Hs.
    rewrite !string_append_assoc, endswith_slash, orb_true_r. reflexivity.
Qed.

Lemma download_labs_all_classes_fetches_what_is_listed_witness :
  Py.startswith "z5555555" "/" = false
  /\ Py.join (Remote.ssh_lab_path "23T1" "lab2" "H14A") "z5555555"
     = (Remote.ssh_lab_path "23T1" "lab2" "H14A" ++ "z5555555")%string.
Proof.
  split; [reflexivity|].
  apply (download_labs_all_classes_fetches_what_is_listed
           (fun _ => []) "23T1" "lab2" ["H14A"] "save").
  reflexivity.
Defined.

Lemma lookup_setitem_same {V} k (v : V) d :
  Remote.lookup k (Remote.setitem k v d) = Some v.
Proof.
  induction d as [|[k' v'] d IH]; cbn.
  - now rewrite String.eqb_refl.
  - destruct (String.eqb k' k) eqn:E; cbn.
    + now rewrite String.eqb_refl.
    + now rewrite E.
Qed.

Lemma lookup_setitem_other {V} k k0 (v : V) d :
  k <> k0 -> Remote.lookup k0 (Remote.setitem k v d) = Remote.lookup k0 d.
Proof.
  intros Hne. induction d as [|[k' v'] d IH]; cbn.
  - apply String.eqb_neq in Hne. now rewrite Hne.
  - destruct (String.eqb_spec k' k) as [->|Hk]; cbn.
    + apply String.eqb_neq in Hne. now rewrite Hne.
    + destruct (String.eqb k' k0); [reflexivity|exact IH].
Qed.

Lemma keys_setitem_nodup {V} k (v : V) d :
  NoDup (map fst d) -> NoDup (map fst (Remote.setitem k v d)).
Proof.
  assert (Hin : forall d x, In x (map fst (Remote.setitem k v d)) ->
                            x = k \/ In x (map fst d)).
  { clear d. induction d as [|[k' v'] d IH]; cbn.
    - intros x [<-|[]]. auto.
    - intros x. destruct (String.eqb_spec k' k) as [->|Hk]; cbn.
      + intros [<-|?]; auto.
      + intros [<-|H]; [auto|]. destruct (IH _ H); auto. }
  induction d as [|[k' v'] d IH]; cbn.
  - intros _. repeat constructor. intros [].
  - intros Hnd. inversion Hnd as [|? ? Hk' Hd]; subst.
    destruct (String.eqb_spec k' k) as [->|Hk]; cbn.
    + now constructor.
    + constructor; [|now apply IH].
      intros H. destruct (Hin _ _ H); auto.
Qed.

Lemma log_download_some selected_lab p r :
  Remote.submission_of p selected_lab = Some r ->
  log_download selected_lab p
  = [Remote.DownloadFile p (".temp/" ++ Remote.zID r)%string].
Proof. unfold log_download. now intros ->. Qed.

(** The loop of [download_log_files] from any dict and any actions done. *)
Lemma download_log_loop_returns selected_lab :
  forall r_log_paths d done d' acts,
    Remote.download_log_loop r_log_paths selected_lab d done
    = (Returned d', acts) ->
    acts = done ++ flat_map (log_download selected_lab) r_log_paths
    /\ List.length (flat_map (log_download selected_lab) r_log_paths)
       = List.length r_log_paths
    /\ (NoDup (map fst d) -> NoDup (map fst d'))
    /\ forall student_id,
         Remote.lookup student_id d'
         = match last_record student_id selected_lab r_log_paths with
           | Some r => Some r
           | None => Remote.lookup student_id d
           end.
Proof.
  induction r_log_paths as [|p rest IH]; intros d done d' acts.
  - intros [= <- <-]. cbn. rewrite app_nil_r. auto.
  - cbn [Remote.download_log_loop flat_map last_record].
    destruct (Remote.submission_of p selected_lab) as [r|] eqn:E;
      [|discriminate].
    rewrite (log_download_some _ _ _ E).
    intros H. apply IH in H as (-> & Hlen & Hnd & Hlook).
    split; [now rewrite <- app_assoc|].
    split; [rewrite length_app, Hlen; reflexivity|].
    split; [intros H; apply Hnd, keys_setitem_nodup, H|].
    intros id. rewrite Hlook.
    destruct (last_record id selected_lab rest); [reflexivity|].
    destruct (String.eqb_spec (Remote.zID r) id) as [<-|Hne].
    + apply lookup_setitem_same.
    + now apply lookup_setitem_other.
Qed.

(** X20.  When [download_log_files] returns, it has fetched every log, in
    order, each into [.temp/<student id>], so the logs of one student
    overwrite each other; and the dict it returns has one entry per student:
    looking a student up gives the record made from the last of that
    student's log paths, and nothing for a student without a log path. *)
Theorem download_log_files_keeps_the_last_record
    r_log_paths selected_lab r_submissions acts :
  Remote.download_log_files r_log_paths selected_lab
  = (Returned r_submissions, acts) ->
  acts = flat_map (log_download selected_lab) r_log_paths
  /\ List.length acts = List.length r_log_paths
  /\ NoDup (map fst r_submissions)
  /\ forall student_id,
       Remote.lookup student_id r_submissions
       = last_record student_id selected_lab r_log_paths.
Proof.
  intros H. apply download_log_loop_returns in H as (-> & Hlen & Hnd & Hlook).
  cbn [app]. split; [reflexivity|]. split; [exact Hlen|].
  split; [apply Hnd; constructor|].
  intros id. rewrite Hlook. cbn. now destruct (last_record _ _ _).
Qed.

Lemma download_log_files_keeps_the_last_record_witness :
  let paths := ["/home/cs3331/23T1.work/lab2/H14A/z1/log";
                "/home/cs3331/23T1.work/lab2/H14A/z2/log";
                "/home/cs3331/23T1.work/lab2/T09B/z1/log"] in
  let run := Remote.download_log_files paths "lab2" in
  Remote.lookup "z1" (match fst run with Returned d => d | Raised _ => [] end)
  = Some (Remote.mkRemoteSubmission "z1" "/home/cs3331/23T1.work/lab2/T09B/z1"
            "lab2" "T09B")
  /\ forall student_id,
       Remote.lookup student_id
         (match fst run with Returned d => d | Raised _ => [] end)
       = last_record student_id "lab2" paths.
Proof.
  cbv zeta. split; [vm_compute; reflexivity|].
  apply (download_log_files_keeps_the_last_record
           ["/home/cs3331/23T1.work/lab2/H14A/z1/log";
            "/home/cs3331/23T1.work/lab2/H14A/z2/log";
            "/home/cs3331/23T1.work/lab2/T09B/z1/log"] "lab2" _
           (snd (Remote.download_log_files
                   ["/home/cs3331/23T1.work/lab2/H14A/z1/log";
                    "/home/cs3331/23T1.work/lab2/H14A/z2/log";
                    "/home/cs3331/23T1.work/lab2/T09B/z1/log"] "lab2"))).
  vm_compute. reflexivity.
Defined.

Lemma slice_m3_m1_length {A} (t : list A) :
  List.length (Remote.slice_m3_m1 t)
  = if (3 <=? List.length t)%nat then 2 else List.length t - 1.
Proof.
  unfold Remote.slice_m3_m1. rewrite length_firstn, length_skipn.
  destruct (Nat.leb_spec 3 (List.length t)); lia.
Qed.

Lemma submission_of_none r_log_path selected_lab :
  Remote.submission_of r_log_path selected_lab = None
  <-> List.length (Remote.parts r_log_path) < 3.
Proof.
  unfold Remote.submission_of.
  pose proof (slice_m3_m1_length (Remote.parts r_log_path)) as Hlen.
  destruct (Nat.leb_spec 3 (List.length (Remote.parts r_log_path))) as [H|H].
  - destruct (Remote.slice_m3_m1 _) as [|a [|b [|c l]]]; cbn in Hlen;
      try lia. split; [discriminate|lia].
  - destruct (Remote.slice_m3_m1 _) as [|a [|b [|c l]]]; cbn in Hlen;
      try lia; split; auto.
Qed.

Lemma download_log_loop_raises selected_lab p after :
  List.length (Remote.parts p) < 3 ->
  forall before d done,
    Forall (fun q => 3 <= List.length (Remote.parts q)) before ->
    Remote.download_log_loop (before ++ p :: after) selected_lab d done
    = (Raised ValueError, done ++ flat_map (log_download selected_lab) before).
Proof.
  intros Hshort. induction before as [|b before IH]; intros d done Hgood.
  - cbn [app Remote.download_log_loop flat_map].
    apply (submission_of_none p selected_lab) in Hshort. rewrite Hshort.
    now rewrite app_nil_r.
  - inversion Hgood as [|? ? Hb Hrest]; subst.
    cbn [app Remote.download_log_loop flat_map].
    destruct (Remote.submission_of b selected_lab) as [r|] eqn:E.
    + rewrite (log_download_some _ _ _ E), (IH _ _ Hrest), <- app_assoc.
      reflexivity.
    + apply submission_of_none in E. lia.
Qed.

Lemma download_log_loop_accepts selected_lab :
  forall r_log_paths d done,
    Forall (fun q => 3 <= List.length (Remote.parts q)) r_log_paths ->
    exists d' acts,
      Remote.download_log_loop r_log_paths selected_lab d done
      = (Returned d', acts).
Proof.
  induction r_log_paths as [|q rest IH]; intros d done Hgood.
  - cbn. eauto.
  - inversion Hgood as [|? ? Hq Hrest]; subst.
    cbn [Remote.download_log_loop].
    destruct (Remote.submission_of q selected_lab) as [r|] eqn:E.
    + now apply IH.
    + apply submission_of_none in E. lia.
Qed.

(** X21.  A log path with fewer than three parts, [/log] or [z1/log] for
    instance, cannot be unpacked into class and student: [download_log_files]
    raises [ValueError] at the first such path, having fetched the logs of
    the paths before it and none after.  With three parts or more every path
    is accepted, and the function returns. *)
Theorem short_log_path_raises r_log_paths selected_lab :
  (forall before p after,
      r_log_paths = before ++ p :: after ->
      Forall (fun q => 3 <= List.length (Remote.parts q)) before ->
      List.length (Remote.parts p) < 3 ->
      Remote.download_log_files r_log_paths selected_lab
      = (Raised ValueError, flat_map (log_download selected_lab) before))
  /\ (Forall (fun q => 3 <= List.length (Remote.parts q)) r_log_paths ->
      exists r_submissions acts,
        Remote.download_log_files r_log_paths selected_lab
        = (Returned r_submissions, acts)).
Proof.
  unfold Remote.download_log_files. split.
  - intros before p after -> Hgood Hshort.
    now rewrite (download_log_loop_raises _ _ _ Hshort _ _ _ Hgood).
  - apply download_log_loop_accepts.
Qed.

Lemma short_log_path_raises_witness :
  Forall (fun q => 3 <= List.length (Remote.parts q))
         ["/home/cs3331/23T1.work/lab2/H14A/z1/log"]
  /\ List.length (Remote.parts "z2/log") < 3
  /\ Remote.download_log_files
       ["/home/cs3331/23T1.work/lab2/H14A/z1/log"; "z2/log";
        "/home/cs3331/23T1.work/lab2/H14A/z3/log"] "lab2"
     = (Raised ValueError,
        [Remote.DownloadFile "/home/cs3331/23T1.work/lab2/H14A/z1/log"
                             ".temp/z1"]).
Proof.
  assert (H1 : Forall (fun q => 3 <= List.length (Remote.parts q))
                      ["/home/cs3331/23T1.work/lab2/H14A/z1/log"])
    by (constructor; [vm_compute; lia|constructor]).
  assert (H2 : List.length (Remote.parts "z2/log") < 3)
    by (vm_compute; lia).
  split; [exact H1|]. split; [exact H2|].
  apply (proj1 (short_log_path_raises
                  ["/home/cs3331/23T1.work/lab2/H14A/z1/log"; "z2/log";
                   "/home/cs3331/23T1.work/lab2/H14A/z3/log"] "lab2")
           ["/home/cs3331/23T1.work/lab2/H14A/z1/log"] "z2/log"
           ["/home/cs3331/23T1.work/lab2/H14A/z3/log"] eq_refl H1 H2).
Defined.
